(** * ColdHarbor: the Firestore data-access layer

    A shallow embedding of [server/firebase.ts] (document normaliser) and
    [server/storage.ts] (identifier allocator and record store), together
    with the parts of the JavaScript and Firestore platforms these two
    files rely on.

    - Module [JS]: JavaScript numbers (IEEE-754 binary64 values), the
      [Number(string)] coercion, [Number.prototype.toString], truthiness.
    - Module [Firestore]: documents, snapshots, timestamps and the store.
    - Module [firebase]: [convertFirestoreData], [convertFirestoreCollection].
    - Module [FirebaseStorage]: the allocator and the CRUD operations.

    Each awaited call is one step of a sequential program over the store.
    Documents are flat records of scalar values, dates and timestamps.
    The operations that go through a query ([getUser], [getUserByEmail],
    the list operations) are not part of the embedding. *)

From Stdlib Require Import ZArith Lia.
From stdpp Require Import base option list strings gmap sorting.

(** ** JavaScript values *)

Module JS.

Local Open Scope Z_scope.

(** A JavaScript number is a binary64 value.  Finite values are kept in a
    canonical exact form: an integer-valued number is [Int z]; any other
    finite number is [Frac neg m k], that is (-1)^neg * m / 2^k with [m]
    odd.  [Int 0] is +0 and [NegZero] is -0. *)
Inductive number : Type :=
  | NaN
  | Infinity (neg : bool)
  | NegZero
  | Int (z : Z)
  | Frac (neg : bool) (m k : positive).

#[global] Instance number_eq_dec : EqDecision number.
Proof. solve_decision. Defined.

Definition isNaN (n : number) : bool :=
  match n with NaN => true | _ => false end.

Definition zero (neg : bool) : number := if neg then NegZero else Int 0.

(** [floor_log2_rat p q] is the integer [e] with 2^e <= p/q < 2^(e+1),
    for positive [p] and [q]. *)
Definition floor_log2_rat (p q : Z) : Z :=
  let d := Z.log2 p - Z.log2 q in
  let below := if 0 <=? d then p <? q * 2 ^ d else p * 2 ^ (- d) <? q in
  if below then d - 1 else d.

(** Nearest integer to n/d, ties to the even one (d > 0, n >= 0). *)
Definition round_half_even (n d : Z) : Z :=
  let q := n / d in
  match 2 * (n mod d) ?= d with
  | Lt => q
  | Gt => q + 1
  | Eq => if Z.even q then q else q + 1
  end.

(** [strip_twos neg m k] is the canonical form of (-1)^neg * m / 2^k. *)
Fixpoint strip_twos (neg : bool) (m : positive) (k : nat) {struct k}
    : number :=
  match k with
  | O => Int (if neg then Z.neg m else Z.pos m)
  | S k' =>
      match m with
      | xO m' => strip_twos neg m' k'
      | _ => Frac neg m (Pos.of_nat k)
      end
  end.

(** [dyadic neg m u] is the canonical form of (-1)^neg * m * 2^u, m > 0. *)
Definition dyadic (neg : bool) (m u : Z) : number :=
  if 0 <=? u then Int ((if neg then - m else m) * 2 ^ u)
  else match m with
       | Z.pos p => strip_twos neg p (Z.to_nat (- u))
       | _ => zero neg
       end.

(** [round_double neg p q] is the binary64 value nearest to
    (-1)^neg * p / q (round to nearest, ties to even), for p >= 0, q > 0:
    53 bits of precision, least exponent -1074, overflow to infinity at
    2^1024. *)
Definition round_double (neg : bool) (p q : Z) : number :=
  if p <=? 0 then zero neg
  else
    let e := floor_log2_rat p q in
    let u := Z.max (e - 52) (-1074) in
    let m := if 0 <=? u then round_half_even p (q * 2 ^ u)
             else round_half_even (p * 2 ^ (- u)) q in
    if m =? 0 then zero neg
    else if (0 <=? u) && (2 ^ 1024 <=? m * 2 ^ u) then Infinity neg
    else dyadic neg m u.

(** The exact value of a finite number as a fraction (numerator,
    denominator), denominator positive. *)
Definition to_rat (n : number) : option (Z * Z) :=
  match n with
  | Int z => Some (z, 1)
  | NegZero => Some (0, 1)
  | Frac neg m k => Some (if neg then Z.neg m else Z.pos m, 2 ^ Z.pos k)
  | _ => None
  end.

Definition of_rat (n d : Z) : number :=
  if n =? 0 then Int 0 else round_double (n <? 0) (Z.abs n) d.

(** The [+] operator on two numbers (Number::add). *)
Definition add (a b : number) : number :=
  match a, b with
  | NaN, _ | _, NaN => NaN
  | Infinity s, Infinity t => if Bool.eqb s t then Infinity s else NaN
  | Infinity s, _ | _, Infinity s => Infinity s
  | NegZero, NegZero => NegZero
  | _, _ =>
      match to_rat a, to_rat b with
      | Some (p1, q1), Some (p2, q2) => of_rat (p1 * q2 + p2 * q1) (q1 * q2)
      | _, _ => NaN
      end
  end.

(** Strings are sequences of UTF-8 bytes; [code_units] reads them as
    numbers so that the grammar below can name characters by code. *)
Definition code_units (s : string) : list Z :=
  (fun c => Z.of_N (Ascii.N_of_ascii c)) <$> String.list_ascii_of_string s.

(** StrWhiteSpaceChar: WhiteSpace and LineTerminator code points, each as
    its UTF-8 encoding (TAB, LF, VT, FF, CR, SP, U+00A0, U+1680,
    U+2000..U+200A, U+2028, U+2029, U+202F, U+205F, U+3000, U+FEFF). *)
Definition StrWhiteSpaceChar : list (list Z) :=
  [ [9]; [10]; [11]; [12]; [13]; [32]; [194; 160]; [225; 154; 128];
    [226; 128; 128]; [226; 128; 129]; [226; 128; 130]; [226; 128; 131];
    [226; 128; 132]; [226; 128; 133]; [226; 128; 134]; [226; 128; 135];
    [226; 128; 136]; [226; 128; 137]; [226; 128; 138];
    [226; 128; 168]; [226; 128; 169]; [226; 128; 175]; [226; 129; 159];
    [227; 128; 128]; [239; 187; 191] ].

Fixpoint drop_prefix (p l : list Z) : option (list Z) :=
  match p, l with
  | [], _ => Some l
  | a :: p', b :: l' => if a =? b then drop_prefix p' l' else None
  | _ :: _, [] => None
  end.

Fixpoint drop_any (ps : list (list Z)) (l : list Z) : option (list Z) :=
  match ps with
  | [] => None
  | p :: ps' =>
      match drop_prefix p l with
      | Some r => Some r
      | None => drop_any ps' l
      end
  end.

Fixpoint skip_ws (fuel : nat) (ws : list (list Z)) (l : list Z) : list Z :=
  match fuel with
  | O => l
  | S fuel' =>
      match drop_any ws l with
      | Some r => skip_ws fuel' ws r
      | None => l
      end
  end.

(** Removal of leading and trailing StrWhiteSpace. *)
Definition trim (l : list Z) : list Z :=
  let l1 := skip_ws (length l) StrWhiteSpaceChar l in
  rev (skip_ws (length l1) (map (@rev Z) StrWhiteSpaceChar) (rev l1)).

(** The value of character [c] as a digit in [base] (2, 8, 10 or 16). *)
Definition digit (base c : Z) : option Z :=
  let v := if (48 <=? c) && (c <=? 57) then c - 48
           else if (97 <=? c) && (c <=? 102) then c - 87
           else if (65 <=? c) && (c <=? 70) then c - 55
           else base in
  if v <? base then Some v else None.

(** Reads the longest run of digits: (value with [acc] as the digits read
    so far, number of digits read on top of [n], remaining input). *)
Fixpoint digits (base : Z) (l : list Z) (acc n : Z) : Z * Z * list Z :=
  match l with
  | c :: r =>
      match digit base c with
      | Some v => digits base r (acc * base + v) (n + 1)
      | None => (acc, n, l)
      end
  | [] => (acc, n, l)
  end.

(** The number denoted by mantissa [m] >= 0 and decimal exponent [e]. *)
Definition decimal_value (neg : bool) (m e : Z) : number :=
  if 0 <=? e then round_double neg (m * 10 ^ e) 1
  else round_double neg m (10 ^ (- e)).

Definition sign_prefix (l : list Z) : bool * list Z :=
  match l with
  | 43 :: r => (false, r)
  | 45 :: r => (true, r)
  | _ => (false, l)
  end.

(** StrUnsignedDecimalLiteral with the sign already read. *)
Definition StrUnsignedDecimalLiteral (neg : bool) (l : list Z) : number :=
  if bool_decide (l = code_units "Infinity") then Infinity neg
  else
    let '(ip, ni, r1) := digits 10 l 0 0 in
    let '(m, nf, r2) :=
      match r1 with
      | 46 :: r => digits 10 r ip 0
      | _ => (ip, 0, r1)
      end in
    if ni + nf =? 0 then NaN
    else
      match r2 with
      | [] => decimal_value neg m (- nf)
      | c :: r3 =>
          if (c =? 101) || (c =? 69) then
            let '(eneg, r4) := sign_prefix r3 in
            let '(ev, ne, r5) := digits 10 r4 0 0 in
            match r5 with
            | [] => if ne =? 0 then NaN
                    else decimal_value neg m ((if eneg then - ev else ev) - nf)
            | _ :: _ => NaN
            end
          else NaN
      end.

(** NonDecimalIntegerLiteral body: all of [l] must be digits in [base]. *)
Definition NonDecimalIntegerLiteral (base : Z) (l : list Z) : number :=
  match digits base l 0 0 with
  | (v, n, []) => if n =? 0 then NaN else round_double false v 1
  | _ => NaN
  end.

(** StringToNumber, the [Number(s)] coercion applied to a string. *)
Definition Number (s : string) : number :=
  match trim (code_units s) with
  | [] => Int 0
  | 48 :: 120 :: r | 48 :: 88 :: r => NonDecimalIntegerLiteral 16 r
  | 48 :: 111 :: r | 48 :: 79 :: r => NonDecimalIntegerLiteral 8 r
  | 48 :: 98 :: r | 48 :: 66 :: r => NonDecimalIntegerLiteral 2 r
  | l => let '(neg, r) := sign_prefix l in StrUnsignedDecimalLiteral neg r
  end.

(** *** Number::toString (radix 10) *)

(** [ilog10_up] finds the least n' >= n with p/q < 10^n'; [ilog10_down]
    the greatest n' <= n with 10^(n'-1) <= p/q. *)
Fixpoint ilog10_up (fuel : nat) (p q n : Z) : Z :=
  match fuel with
  | O => n
  | S fuel' => if p <? q * 10 ^ n then n else ilog10_up fuel' p q (n + 1)
  end.

Fixpoint ilog10_down (fuel : nat) (p q n : Z) : Z :=
  match fuel with
  | O => n
  | S fuel' => if q <=? p * 10 ^ (1 - n) then n else ilog10_down fuel' p q (n - 1)
  end.

(** The integer n with 10^(n-1) <= p/q < 10^n (finite doubles lie between
    10^-324 and 10^309). *)
Definition magnitude10 (p q : Z) : Z :=
  if q <=? p then ilog10_up 400 p q 1 else ilog10_down 400 p q 0.

(** c * 10^e as a fraction. *)
Definition scaled (c e : Z) : Z * Z :=
  if 0 <=? e then (c * 10 ^ e, 1) else (c, 10 ^ (- e)).

(** Does the decimal c * 10^e denote the positive double [x]? *)
Definition denotes (x : number) (c e : Z) : bool :=
  let '(cp, cq) := scaled c e in
  bool_decide (round_double false cp cq = x).

(** The [k]-digit significand s with s * 10^(n-k) denoting x = p/q, if
    any; of two candidates the one nearer to x, the even one on a tie. *)
Definition significand (x : number) (p q n k : Z) : option Z :=
  let '(num, den0) := scaled p (k - n) in
  let den := den0 * q in
  let lo := num / den in
  let hi := lo + 1 in
  let lo_ok := denotes x lo (n - k) in
  let hi_ok := denotes x hi (n - k) in
  match lo_ok, hi_ok with
  | true, true =>
      match 2 * (num mod den) ?= den with
      | Lt => Some lo
      | Gt => Some hi
      | Eq => Some (if Z.even lo then lo else hi)
      end
  | true, false => Some lo
  | false, true => Some hi
  | false, false => None
  end.

(** The shortest significand: least k (at most 17 digits are ever
    needed), returned with k. *)
Fixpoint shortest (fuel : nat) (x : number) (p q n k : Z) : Z * Z :=
  match fuel with
  | O => (p / q, k)
  | S fuel' =>
      match significand x p q n k with
      | Some s => (s, k)
      | None => shortest fuel' x p q n (k + 1)
      end
  end.

Definition digit_char (d : Z) : Ascii.ascii := Ascii.ascii_of_N (Z.to_N (48 + d)).

Fixpoint decimal_go (fuel : nat) (z : Z) (acc : string) : string :=
  match fuel with
  | O => acc
  | S fuel' =>
      let acc' := String (digit_char (z mod 10)) acc in
      if z <? 10 then acc' else decimal_go fuel' (z / 10) acc'
  end.

(** The decimal numeral of a non-negative integer. *)
Definition decimal (z : Z) : string :=
  decimal_go (S (Z.to_nat (Z.log2 z))) z "".

Fixpoint zeros (n : nat) : string :=
  match n with O => "" | S n' => String (digit_char 0) (zeros n') end.

Definition substring_from (n : Z) (s : string) : string :=
  String.substring (Z.to_nat n) (String.length s - Z.to_nat n) s.

(** The numeral of the positive finite number p/q. *)
Definition toString_pos (x : number) (p q : Z) : string :=
  let n0 := magnitude10 p q in
  let '(s0, k0) := shortest 17 x p q n0 1 in
  let '(s, k, n) := if s0 =? 10 ^ k0 then (1, 1, n0 + 1) else (s0, k0, n0) in
  let ds := decimal s in
  if (k <=? n) && (n <=? 21) then ds +:+ zeros (Z.to_nat (n - k))
  else if (0 <? n) && (n <=? 21) then
    String.substring 0 (Z.to_nat n) ds +:+ "." +:+ substring_from n ds
  else if (-6 <? n) && (n <=? 0) then
    "0." +:+ zeros (Z.to_nat (- n)) +:+ ds
  else
    let e := n - 1 in
    let es := (if e <? 0 then "-" else "+") +:+ decimal (Z.abs e) in
    if k =? 1 then ds +:+ "e" +:+ es
    else String.substring 0 1 ds +:+ "." +:+ substring_from 1 ds +:+ "e" +:+ es.

(** [x.toString()] for a number [x]. *)
Definition toString (x : number) : string :=
  match x with
  | NaN => "NaN"
  | Infinity neg => if neg then "-Infinity" else "Infinity"
  | NegZero => "0"
  | Int z =>
      if z =? 0 then "0"
      else if z <? 0 then "-" +:+ toString_pos (Int (- z)) (- z) 1
      else toString_pos x z 1
  | Frac neg m k =>
      (if neg then "-" else "") +:+
      toString_pos (Frac false m k) (Z.pos m) (2 ^ Z.pos k)
  end.

(** *** parseInt and strict equality *)

(** [parseInt(s)] with no radix: leading white space is skipped, a sign
    and a [0x] prefix are read, then the longest run of digits; NaN when
    there is no digit. *)
Definition parseInt (s : string) : number :=
  let l := skip_ws (length (code_units s)) StrWhiteSpaceChar (code_units s) in
  let '(neg, l1) := sign_prefix l in
  let '(radix, l2) :=
    match l1 with
    | 48 :: 120 :: r | 48 :: 88 :: r => (16, r)
    | _ => (10, l1)
    end in
  let '(v, n, _) := digits radix l2 0 0 in
  if n =? 0 then NaN else round_double neg v 1.

Definition unsigned_zero (x : number) : number :=
  match x with NegZero => Int 0 | _ => x end.

(** Number::equal, the [===] of two numbers: NaN equals nothing, and the
    two zeros are equal. *)
Definition number_equal (x y : number) : bool :=
  match x, y with
  | NaN, _ | _, NaN => false
  | _, _ => bool_decide (unsigned_zero x = unsigned_zero y)
  end.

End JS.

(** ** The Firestore provider *)

Module Firestore.

Import JS.
Local Open Scope Z_scope.

(** A JavaScript [Date]: its time value, in milliseconds since the epoch. *)
Record Date : Type := mkDate { getTime : Z }.

(** The provider's timestamp: seconds since the epoch and nanoseconds. *)
Record Timestamp : Type := mkTimestamp { seconds : Z; nanoseconds : Z }.

(** [Timestamp.toDate()]:
    [new Date(seconds * 1000 + Math.round(nanoseconds / 1e6))]. *)
Definition Timestamp_toDate (t : Timestamp) : Date :=
  mkDate (seconds t * 1000 + (nanoseconds t + 500000) / 1000000).

(** [Timestamp.fromDate(date)]. *)
Definition Timestamp_fromDate (d : Date) : Timestamp :=
  let s := getTime d / 1000 in
  mkTimestamp s ((getTime d - s * 1000) * 1000000).

(** The values held by the fields of records and documents.  [undefined]
    is the absence of a field. *)
Inductive value : Type :=
  | VNull
  | VBool (b : bool)
  | VNum (n : number)
  | VStr (s : string)
  | VDate (d : Date)
  | VTimestamp (t : Timestamp).

#[global] Instance Date_eq_dec : EqDecision Date.
Proof. solve_decision. Defined.
#[global] Instance Timestamp_eq_dec : EqDecision Timestamp.
Proof. solve_decision. Defined.
#[global] Instance value_eq_dec : EqDecision value.
Proof. solve_decision. Defined.

(** ToBoolean. *)
Definition truthy_number (n : number) : bool :=
  match n with
  | NaN | NegZero => false
  | Int z => negb (z =? 0)
  | _ => true
  end.

Definition truthy (v : value) : bool :=
  match v with
  | VNull => false
  | VBool b => b
  | VNum n => truthy_number n
  | VStr s => negb (String.eqb s "")
  | VDate _ | VTimestamp _ => true
  end.

(** [a || b] where [a] is a property read (None is [undefined]). *)
Definition or_else (a : option value) (b : value) : value :=
  match a with
  | Some v => if truthy v then v else b
  | None => b
  end.

Definition number_or_else (a : option number) (b : number) : number :=
  match a with
  | Some n => if truthy_number n then n else b
  | None => b
  end.

(** Plain objects and document payloads: field name to value. *)
Abbreviation DocumentData := (gmap string value).

(** An object literal [{...base, k1: v1, k2: v2, ...}]: later properties
    replace earlier ones. *)
Definition object_literal (base : DocumentData)
    (props : list (string * value)) : DocumentData :=
  foldl (fun o kv => <[kv.1 := kv.2]> o) base props.

(** What the provider stores for a written value: dates become
    timestamps, everything else is stored as it is. *)
Definition encode_value (v : value) : value :=
  match v with
  | VDate d => VTimestamp (Timestamp_fromDate d)
  | _ => v
  end.

Definition encode (o : DocumentData) : DocumentData := encode_value <$> o.

(** A document snapshot: the key and, if the document exists, its data. *)
Record DocumentSnapshot : Type :=
  mkSnapshot { id : string; data : option DocumentData }.

(** [doc.exists] *)
Definition exists_ (doc : DocumentSnapshot) : bool :=
  match data doc with Some _ => true | None => false end.

Record QuerySnapshot : Type := mkQuery { docs : list DocumentSnapshot }.

(** [snapshot.empty] *)
Definition empty (snapshot : QuerySnapshot) : bool :=
  match docs snapshot with [] => true | _ :: _ => false end.

(** A document reference: collection name and document key. *)
Abbreviation DocumentReference := (string * string)%type.

(** The store.  All documents are addressed by reference, except the
    singleton [system/counters], kept apart because its fields are the
    numbers written by the allocator. *)
Record db : Type := mkDb {
  documents : gmap (string * string) (gmap string value);
  counters : option (gmap string number)
}.

Inductive error : Type :=
  | Error (message : string)
  | TypeError
  | NOT_FOUND.

Inductive result (A : Type) : Type :=
  | Ok (a : A)
  | Throw (e : error).
Arguments Ok {A} a.
Arguments Throw {A} e.

#[global] Instance result_ret : MRet result := fun A a => Ok a.
#[global] Instance result_bind : MBind result := fun A B f r =>
  match r with Ok a => f a | Throw e => Throw e end.
#[global] Instance result_fmap : FMap result := fun A B f r =>
  match r with Ok a => Ok (f a) | Throw e => Throw e end.

(** [Array.prototype.map] with a callback that may throw. *)
Fixpoint map_result {A B : Type} (f : A -> result B) (l : list A)
    : result (list B) :=
  match l with
  | [] => Ok []
  | a :: l' => b ← f a; bs ← map_result f l'; Ok (b :: bs)
  end.

(** An awaited operation: it reads and writes the store and either
    returns or throws; what was written before a throw stays written. *)
Definition M (A : Type) : Type := db -> result A * db.

#[global] Instance M_ret : MRet M := fun A a s => (Ok a, s).
#[global] Instance M_bind : MBind M := fun A B f c s =>
  match c s with
  | (Ok a, s') => f a s'
  | (Throw e, s') => (Throw e, s')
  end.

Definition throw {A : Type} (e : error) : M A := fun s => (Throw e, s).

Definition lift {A : Type} (r : result A) : M A := fun s => (r, s).

(** [ref.get()] *)
Definition ref_get (ref : DocumentReference) : M DocumentSnapshot :=
  fun s => (Ok (mkSnapshot ref.2 (documents s !! ref)), s).

(** [ref.set(o)]: writes the whole document. *)
Definition ref_set (ref : DocumentReference) (o : DocumentData) : M unit :=
  fun s => (Ok tt, mkDb (<[ref := encode o]> (documents s)) (counters s)).

(** [ref.update(o)]: replaces the listed fields of an existing document
    and keeps the others; fails when there is no document. *)
Definition ref_update (ref : DocumentReference) (o : DocumentData) : M unit :=
  fun s =>
    match documents s !! ref with
    | Some old =>
        (Ok tt, mkDb (<[ref := encode o ∪ old]> (documents s)) (counters s))
    | None => (Throw NOT_FOUND, s)
    end.

(** [ref.delete()] *)
Definition ref_delete (ref : DocumentReference) : M unit :=
  fun s => (Ok tt, mkDb (delete ref (documents s)) (counters s)).

(** The same operations on the counters document. *)
Definition counters_get : M (option (gmap string number)) :=
  fun s => (Ok (counters s), s).

Definition counters_exists (doc : option (gmap string number)) : bool :=
  match doc with Some _ => true | None => false end.

Definition counters_set (o : gmap string number) : M unit :=
  fun s => (Ok tt, mkDb (documents s) (Some o)).

Definition counters_update (o : gmap string number) : M unit :=
  fun s =>
    match counters s with
    | Some old => (Ok tt, mkDb (documents s) (Some (o ∪ old)))
    | None => (Throw NOT_FOUND, s)
    end.

(** [db.runTransaction(body)]: the body's reads and writes take effect
    together, or not at all when it fails. *)
Definition runTransaction {A : Type} (body : M A) : M A :=
  fun s =>
    match body s with
    | (Ok a, s') => (Ok a, s')
    | (Throw e, _) => (Throw e, s)
    end.

(** [a === b] for two property reads.  A date or a timestamp is an
    object, equal only to itself; the objects compared here are never the
    same object (one comes from a document just read, the other from the
    request), so they compare unequal. *)
Definition strict_equal (a b : option value) : bool :=
  match a, b with
  | None, None => true
  | Some VNull, Some VNull => true
  | Some (VBool x), Some (VBool y) => Bool.eqb x y
  | Some (VNum x), Some (VNum y) => number_equal x y
  | Some (VStr x), Some (VStr y) => String.eqb x y
  | _, _ => false
  end.

(** The equality filter of a query: the stored value against the value
    asked for.  Numbers are compared by value (the two zeros are equal,
    NaN equals NaN); a date asked for is compared as a timestamp. *)
Definition filter_value (v : value) : value :=
  match encode_value v with
  | VNum n => VNum (unsigned_zero n)
  | w => w
  end.

Definition firestore_equal (stored q : value) : bool :=
  bool_decide (filter_value stored = filter_value q).

(** The order of query results: by document key, bytewise. *)
Definition key_le (a b : string * string * DocumentData) : Prop :=
  String.leb a.1.2 b.1.2 = true.

#[global] Instance key_le_dec : RelDecision key_le.
Proof. intros a b. unfold key_le. apply _. Defined.

(** The documents of a collection, in the order of their keys. *)
Definition collection_docs (s : db) (collection : string)
    : list DocumentSnapshot :=
  (fun e : string * string * DocumentData => mkSnapshot e.1.2 (Some e.2)) <$>
    merge_sort key_le
      (filter (fun e : string * string * DocumentData => e.1.1 = collection)
         (map_to_list (documents s))).

Definition matches (field : string) (q : value) (doc : DocumentSnapshot)
    : bool :=
  match data doc ≫= fun d => d !! field with
  | Some v => firestore_equal v q
  | None => false
  end.

(** [db.collection(c).where(field, '==', q).get()] *)
Definition where_get (collection field : string) (q : value)
    : M QuerySnapshot :=
  fun s =>
    (Ok (mkQuery (filter (fun doc => matches field q doc = true)
                    (collection_docs s collection))), s).

(** [db.collection(c).where(field, '==', q).limit(n).get()] *)
Definition where_limit_get (collection field : string) (q : value) (n : nat)
    : M QuerySnapshot :=
  fun s =>
    (Ok (mkQuery (take n (filter (fun doc => matches field q doc = true)
                            (collection_docs s collection)))), s).

(** [query.docs[0]] handed to a function that reads [doc.exists]: a
    TypeError when there is no such element. *)
Definition first_doc (query : QuerySnapshot) : M DocumentSnapshot :=
  match docs query with
  | doc :: _ => mret doc
  | [] => throw TypeError
  end.

End Firestore.

(** ** server/firebase.ts *)

Module firebase.

Import JS Firestore.

Definition USERS_COLLECTION : string := "users".
Definition TRADES_COLLECTION : string := "trades".
Definition COLLECTIONS_COLLECTION : string := "collections".

(** [v.toDate()]: only a timestamp has the method. *)
Definition toDate (v : value) : result value :=
  match v with
  | VTimestamp t => Ok (VDate (Timestamp_toDate t))
  | _ => Throw TypeError
  end.

(** The spread [...(data[f] && { [f]: data[f].toDate() })] applied to the
    object [o] under construction. *)
Definition spread_date (data : DocumentData) (f : string)
    (o : DocumentData) : result DocumentData :=
  match data !! f with
  | Some v => if truthy v then d ← toDate v; Ok (<[f := d]> o) else Ok o
  | None => Ok o
  end.

Definition convertFirestoreData (doc : DocumentSnapshot)
    : result (option DocumentData) :=
  if negb (exists_ doc) then Ok None
  else
    match data doc with
    | None => Ok None
    | Some data =>
        let id := if negb (isNaN (Number (id doc)))
                  then VNum (Number (id doc)) else VStr (id doc) in
        o ← spread_date data "createdAt" (object_literal data [("id", id)]);
        o ← spread_date data "entryDate" o;
        o ← spread_date data "exitDate" o;
        Ok (Some o)
    end.

Definition convertFirestoreCollection (snapshot : QuerySnapshot)
    : result (list DocumentData) :=
  if empty snapshot then Ok []
  else
    map_result
      (fun doc =>
         match data doc with
         | None => Ok ∅
         | Some data =>
             let id := if negb (isNaN (Number (id doc)))
                       then VNum (Number (id doc)) else VStr (id doc) in
             o ← spread_date data "createdAt" (object_literal data [("id", id)]);
             o ← spread_date data "entryDate" o;
             o ← spread_date data "exitDate" o;
             Ok o
         end)
      (docs snapshot).

End firebase.

(** ** server/storage.ts *)

Module FirebaseStorage.

Import JS Firestore firebase.

(** [this.counterRef] is the document [system/counters]; it is read and
    written through [counters_get], [counters_set], [counters_update]. *)

Definition initializeCounters : M unit :=
  countersDoc ← counters_get;
  if negb (counters_exists countersDoc) then
    counters_set
      (list_to_map [("userId", Int 1); ("tradeId", Int 1); ("collectionId", Int 1)])
  else mret tt.

Definition getNextId (counterName : string) : M number :=
  runTransaction (
    counterDoc ← counters_get;
    let currentValue :=
      number_or_else (counterDoc ≫= fun data => data !! counterName) (Int 1) in
    counters_update {[counterName := add currentValue (Int 1)]};;
    mret currentValue).

(** *** User operations *)

(** [now] is the value of [new Date()] when the record is built. *)
Definition createUser (now : Date) (insertUser : DocumentData)
    : M DocumentData :=
  id ← getNextId "userId";
  let createdAt := now in
  let user :=
    object_literal insertUser
      [ ("id", VNum id);
        ("createdAt", VDate createdAt);
        ("stripeCustomerId", VNull);
        ("stripeSubscriptionId", VNull);
        ("planType", VStr "free");
        ("avatar", or_else (insertUser !! "avatar") VNull) ] in
  ref_set (USERS_COLLECTION, toString id) user;;
  mret user.

Definition updateUserStripeInfo (userId : number)
    (customerId subscriptionId : string) : M DocumentData :=
  let userRef := (USERS_COLLECTION, toString userId) in
  userDoc ← ref_get userRef;
  if negb (exists_ userDoc) then throw (Error "User not found")
  else
    let updatedData : DocumentData :=
      object_literal ∅
        [ ("stripeCustomerId", VStr customerId);
          ("stripeSubscriptionId", VStr subscriptionId) ] in
    ref_update userRef updatedData;;
    updatedUserDoc ← ref_get userRef;
    updatedUser ← lift (convertFirestoreData updatedUserDoc);
    match updatedUser with
    | None => throw (Error "Failed to update user")
    | Some updatedUser => mret updatedUser
    end.

Definition updateUserPlan (userId : number) (planType : string)
    : M DocumentData :=
  let userRef := (USERS_COLLECTION, toString userId) in
  userDoc ← ref_get userRef;
  if negb (exists_ userDoc) then throw (Error "User not found")
  else
    ref_update userRef (object_literal ∅ [("planType", VStr planType)]);;
    updatedUserDoc ← ref_get userRef;
    updatedUser ← lift (convertFirestoreData updatedUserDoc);
    match updatedUser with
    | None => throw (Error "Failed to update user")
    | Some updatedUser => mret updatedUser
    end.

(** *** Trade operations *)

Definition createTrade (now : Date) (insertTrade : DocumentData)
    : M DocumentData :=
  id ← getNextId "tradeId";
  let createdAt := now in
  let trade :=
    object_literal insertTrade
      [ ("id", VNum id);
        ("createdAt", VDate createdAt);
        ("notes", or_else (insertTrade !! "notes") VNull);
        ("collectionId", or_else (insertTrade !! "collectionId") VNull) ] in
  ref_set (TRADES_COLLECTION, toString id) trade;;
  mret trade.

(** The result is [undefined] (None) when there is no such trade. *)
Definition getTrade (id : number) : M (option DocumentData) :=
  tradeDoc ← ref_get (TRADES_COLLECTION, toString id);
  tradeData ← lift (convertFirestoreData tradeDoc);
  mret tradeData.

Definition updateTrade (id : number) (tradeUpdate : DocumentData)
    : M DocumentData :=
  let tradeRef := (TRADES_COLLECTION, toString id) in
  tradeDoc ← ref_get tradeRef;
  if negb (exists_ tradeDoc) then throw (Error "Trade not found")
  else
    ref_update tradeRef tradeUpdate;;
    updatedTradeDoc ← ref_get tradeRef;
    updatedTrade ← lift (convertFirestoreData updatedTradeDoc);
    match updatedTrade with
    | None => throw (Error "Failed to update trade")
    | Some updatedTrade => mret updatedTrade
    end.

Definition deleteTrade (id : number) : M bool :=
  let tradeRef := (TRADES_COLLECTION, toString id) in
  tradeDoc ← ref_get tradeRef;
  if negb (exists_ tradeDoc) then mret false
  else
    ref_delete tradeRef;;
    mret true.

(** *** Collection operations *)

Definition createCollection (now : Date) (insertCollection : DocumentData)
    : M DocumentData :=
  id ← getNextId "collectionId";
  let createdAt := now in
  let collection :=
    object_literal insertCollection
      [ ("id", VNum id);
        ("createdAt", VDate createdAt);
        ("description", or_else (insertCollection !! "description") VNull) ] in
  ref_set (COLLECTIONS_COLLECTION, toString id) collection;;
  mret collection.

Definition getCollection (id : number) : M (option DocumentData) :=
  collectionDoc ← ref_get (COLLECTIONS_COLLECTION, toString id);
  collectionData ← lift (convertFirestoreData collectionDoc);
  mret collectionData.

Definition updateCollection (id : number) (collectionUpdate : DocumentData)
    : M DocumentData :=
  let collectionRef := (COLLECTIONS_COLLECTION, toString id) in
  collectionDoc ← ref_get collectionRef;
  if negb (exists_ collectionDoc) then throw (Error "Collection not found")
  else
    ref_update collectionRef collectionUpdate;;
    updatedCollectionDoc ← ref_get collectionRef;
    updatedCollection ← lift (convertFirestoreData updatedCollectionDoc);
    match updatedCollection with
    | None => throw (Error "Failed to update collection")
    | Some updatedCollection => mret updatedCollection
    end.

Definition deleteCollection (id : number) : M bool :=
  let collectionRef := (COLLECTIONS_COLLECTION, toString id) in
  collectionDoc ← ref_get collectionRef;
  if negb (exists_ collectionDoc) then mret false
  else
    ref_delete collectionRef;;
    mret true.

(** *** Operations that go through a query *)

Definition getUser (id : number) : M (option DocumentData) :=
  query ← where_limit_get USERS_COLLECTION "id" (VNum id) 1;
  if empty query then mret None
  else
    doc ← first_doc query;
    userData ← lift (convertFirestoreData doc);
    mret userData.

Definition getUserByUsername (username : string) : M (option DocumentData) :=
  query ← where_limit_get USERS_COLLECTION "username" (VStr username) 1;
  if empty query then mret None
  else
    doc ← first_doc query;
    userData ← lift (convertFirestoreData doc);
    mret userData.

Definition getUserByEmail (email : string) : M (option DocumentData) :=
  query ← where_limit_get USERS_COLLECTION "email" (VStr email) 1;
  if empty query then mret None
  else
    doc ← first_doc query;
    userData ← lift (convertFirestoreData doc);
    mret userData.

Definition getUserTrades (userId : number) : M (list DocumentData) :=
  query ← where_get TRADES_COLLECTION "userId" (VNum userId);
  lift (convertFirestoreCollection query).

Definition getCollectionTrades (collectionId : number)
    : M (list DocumentData) :=
  query ← where_get TRADES_COLLECTION "collectionId" (VNum collectionId);
  lift (convertFirestoreCollection query).

Definition getUserCollections (userId : number) : M (list DocumentData) :=
  query ← where_get COLLECTIONS_COLLECTION "userId" (VNum userId);
  lift (convertFirestoreCollection query).

End FirebaseStorage.

(** ** server/routes.ts: the trade and collection routes addressed by id *)

Module routes.

Import JS Firestore firebase FirebaseStorage.
Local Open Scope Z_scope.

(** What a handler reads of the request: [req.user] (set by the session
    layer when the request is authenticated), [req.params.id] and
    [req.body]. *)
Record Request : Type := mkRequest {
  user : option DocumentData;
  params_id : string;
  body : DocumentData
}.

(** The argument of [res.json]. *)
Inductive Json : Type :=
  | JRecord (o : DocumentData)
  | JList (l : list DocumentData)
  | JMessage (message : string)
  | JErrorMessage (e : error).

Record Response : Type := mkResponse { status : Z; json : Json }.

(** [try { ... } catch (error) { res.status(500).json({ message: error.message }) }] *)
Definition try_catch (c : M Response) : db -> Response * db :=
  fun s =>
    match c s with
    | (Ok r, s') => (r, s')
    | (Throw e, s') => (mkResponse 500 (JErrorMessage e), s')
    end.

(** [ensureAuthenticated]: [req.isAuthenticated()] holds when the session
    layer has set [req.user]. *)
Definition ensureAuthenticated (req : Request)
    (next : DocumentData -> db -> Response * db) : db -> Response * db :=
  match user req with
  | Some u => next u
  | None => fun s => (mkResponse 401 (JMessage "Unauthorized"), s)
  end.

(** [app.get("/api/trades/:id", ...)] *)
Definition get_trade (req : Request) : db -> Response * db :=
  ensureAuthenticated req (fun u =>
    try_catch (
      trade ← getTrade (parseInt (params_id req));
      match trade with
      | None => mret (mkResponse 404 (JMessage "Trade not found"))
      | Some trade =>
          let userId := u !! "id" in
          if negb (strict_equal (trade !! "userId") userId)
          then mret (mkResponse 403 (JMessage "Forbidden"))
          else mret (mkResponse 200 (JRecord trade))
      end)).

(** [app.put("/api/trades/:id", ...)] *)
Definition put_trade (req : Request) : db -> Response * db :=
  ensureAuthenticated req (fun u =>
    try_catch (
      let tradeId := parseInt (params_id req) in
      trade ← getTrade tradeId;
      match trade with
      | None => mret (mkResponse 404 (JMessage "Trade not found"))
      | Some trade =>
          let userId := u !! "id" in
          if negb (strict_equal (trade !! "userId") userId)
          then mret (mkResponse 403 (JMessage "Forbidden"))
          else
            updatedTrade ← updateTrade tradeId (body req);
            mret (mkResponse 200 (JRecord updatedTrade))
      end)).

(** [app.delete("/api/trades/:id", ...)] *)
Definition delete_trade (req : Request) : db -> Response * db :=
  ensureAuthenticated req (fun u =>
    try_catch (
      let tradeId := parseInt (params_id req) in
      trade ← getTrade tradeId;
      match trade with
      | None => mret (mkResponse 404 (JMessage "Trade not found"))
      | Some trade =>
          let userId := u !! "id" in
          if negb (strict_equal (trade !! "userId") userId)
          then mret (mkResponse 403 (JMessage "Forbidden"))
          else
            deleteTrade tradeId;;
            mret (mkResponse 200 (JMessage "Trade deleted successfully"))
      end)).

(** [app.get("/api/collections/:id", ...)] *)
Definition get_collection (req : Request) : db -> Response * db :=
  ensureAuthenticated req (fun u =>
    try_catch (
      collection ← getCollection (parseInt (params_id req));
      match collection with
      | None => mret (mkResponse 404 (JMessage "Collection not found"))
      | Some collection =>
          let userId := u !! "id" in
          if negb (strict_equal (collection !! "userId") userId)
          then mret (mkResponse 403 (JMessage "Forbidden"))
          else mret (mkResponse 200 (JRecord collection))
      end)).

(** [app.get("/api/collections/:id/trades", ...)] *)
Definition get_collection_trades (req : Request) : db -> Response * db :=
  ensureAuthenticated req (fun u =>
    try_catch (
      let collectionId := parseInt (params_id req) in
      collection ← getCollection collectionId;
      match collection with
      | None => mret (mkResponse 404 (JMessage "Collection not found"))
      | Some collection =>
          let userId := u !! "id" in
          if negb (strict_equal (collection !! "userId") userId)
          then mret (mkResponse 403 (JMessage "Forbidden"))
          else
            trades ← getCollectionTrades collectionId;
            mret (mkResponse 200 (JList trades))
      end)).

(** [app.put("/api/collections/:id", ...)] *)
Definition put_collection (req : Request) : db -> Response * db :=
  ensureAuthenticated req (fun u =>
    try_catch (
      let collectionId := parseInt (params_id req) in
      collection ← getCollection collectionId;
      match collection with
      | None => mret (mkResponse 404 (JMessage "Collection not found"))
      | Some collection =>
          let userId := u !! "id" in
          if negb (strict_equal (collection !! "userId") userId)
          then mret (mkResponse 403 (JMessage "Forbidden"))
          else
            updatedCollection ← updateCollection collectionId (body req);
            mret (mkResponse 200 (JRecord updatedCollection))
      end)).

(** [app.delete("/api/collections/:id", ...)] *)
Definition delete_collection (req : Request) : db -> Response * db :=
  ensureAuthenticated req (fun u =>
    try_catch (
      let collectionId := parseInt (params_id req) in
      collection ← getCollection collectionId;
      match collection with
      | None => mret (mkResponse 404 (JMessage "Collection not found"))
      | Some collection =>
          let userId := u !! "id" in
          if negb (strict_equal (collection !! "userId") userId)
          then mret (mkResponse 403 (JMessage "Forbidden"))
          else
            deleteCollection collectionId;;
            mret (mkResponse 200 (JMessage "Collection deleted successfully"))
      end)).

End routes.

(** ** Vocabulary of the statements *)

Module Spec.

Import JS Firestore.

(** The identifier the normaliser assigns to the document stored under
    [key]: the number the key denotes, or the key itself when it denotes
    none. *)
Definition key_id (key : string) : value :=
  if isNaN (Number key) then VStr key else VNum (Number key).

(** The native date of a stored timestamp; other values are themselves. *)
Definition as_date (v : value) : value :=
  match v with
  | VTimestamp t => VDate (Timestamp_toDate t)
  | _ => v
  end.

Definition date_fields : list string := ["createdAt"; "entryDate"; "exitDate"].

(** The condition under which the normaliser returns a record: each date
    field of the document is absent, falsy (such as [null]) or a timestamp.
    On any other value the call of [toDate] throws.  The record types of
    the shared schema, which type these fields as dates, are not among
    the source files. *)
Definition date_field_ok (o : option value) : bool :=
  match o with
  | None => true
  | Some (VTimestamp _) => true
  | Some v => negb (truthy v)
  end.

Definition date_fields_ok (data : DocumentData) : bool :=
  forallb (fun f => date_field_ok (data !! f)) date_fields.

(** [calls n c]: [n] sequential calls of [c] by one caller, with the
    values they return, in order. *)
Fixpoint calls {A : Type} (n : nat) (c : M A) : M (list A) :=
  match n with
  | O => mret []
  | S n' => a ← c; l ← calls n' c; mret (a :: l)
  end.

(** A field value that a write followed by a normalising read gives back
    as it was: under a date field a date or a falsy value, elsewhere
    anything but a date (a date is stored as a timestamp, and only the
    date fields are converted back). *)
Definition survives (f : string) (v : value) : bool :=
  if bool_decide (f ∈ date_fields) then
    match v with
    | VDate _ => true
    | VTimestamp _ => false
    | _ => negb (truthy v)
    end
  else
    match v with
    | VDate _ => false
    | _ => true
    end.

(** The three kinds of records: collection and counter name. *)
Definition kinds : list (string * string) :=
  [ (firebase.USERS_COLLECTION, "userId");
    (firebase.TRADES_COLLECTION, "tradeId");
    (firebase.COLLECTIONS_COLLECTION, "collectionId") ].

(** The state of a store that has only been written through the record
    store: the counters exist and lie between 1 and 2^53; every document
    of a kind is stored under the key of an identifier below the counter
    of that kind; and a user document holds that identifier in its [id]
    field. *)
Definition store_ok (s : db) : Prop :=
  exists c : gmap string number,
    counters s = Some c
    /\ forall collection counterName,
         (collection, counterName) ∈ kinds ->
         exists z : Z,
           number_or_else (c !! counterName) (Int 1) = Int z
           /\ (1 <= z <= 2 ^ 53)%Z
           /\ forall key d,
                documents s !! (collection, key) = Some d ->
                exists i : Z,
                  (1 <= i < z)%Z /\ key = toString (Int i)
                  /\ (collection = firebase.USERS_COLLECTION ->
                      d !! "id" = Some (VNum (Int i))).

(** What the normaliser makes of the value stored in field [f] (other
    than [id]): the native date under a date field, the value itself
    elsewhere. *)
Definition read_back (f : string) (v : value) : value :=
  if bool_decide (f ∈ date_fields) then as_date v else v.

(** The payloads that [ref.update] merges field by field.  The client
    library rejects an empty payload, and reads a key as a field path: a
    key with a dot addresses a nested field, and the empty key or one with
    any of the characters * ~ / [ ] is refused.  On every other key the
    update replaces the top-level field of that name. *)
Definition top_level_field (f : string) : bool :=
  negb (String.eqb f EmptyString)
  && forallb (fun c => negb (bool_decide (c ∈ [42; 46; 47; 91; 93; 126]%Z)))
       (code_units f).

Definition update_data (o : DocumentData) : bool :=
  negb (bool_decide (o = ∅)) && forallb top_level_field (fst <$> map_to_list o).

(** Document [key] of [collection] is stored with data [d], whose field
    [field] passes the equality filter against [q]. *)
Definition stored_match (collection field : string) (q : value) (s : db)
    (key : string) (d : DocumentData) : Prop :=
  documents s !! (collection, key) = Some d
  /\ exists v, d !! field = Some v /\ firestore_equal v q = true.

(** The outcome of a lookup of one user by a field: nothing when no user
    document matches, and otherwise what the normaliser makes of a
    matching document; the store is left as it was. *)
Definition finds (field : string) (q : value) (s : db)
    (out : result (option DocumentData) * db) : Prop :=
  (out = (Ok None, s)
   /\ forall key d, ~ stored_match firebase.USERS_COLLECTION field q s key d)
  \/ exists key d,
       stored_match firebase.USERS_COLLECTION field q s key d
       /\ out = (firebase.convertFirestoreData (mkSnapshot key (Some d)), s).

(** The outcome of a listing by a field: the records of exactly the
    matching documents, all of which can be read, or a TypeError because
    a matching document has a date field that cannot be read; the store
    is left as it was. *)
Definition lists (collection field : string) (q : value) (s : db)
    (out : result (list DocumentData) * db) : Prop :=
  match out with
  | (Ok l, s') =>
      s' = s
      /\ (forall key d,
            stored_match collection field q s key d -> date_fields_ok d = true)
      /\ forall r,
           r ∈ l <->
           exists key d,
             stored_match collection field q s key d
             /\ firebase.convertFirestoreData (mkSnapshot key (Some d))
                = Ok (Some r)
  | (Throw e, s') =>
      s' = s /\ e = TypeError
      /\ exists key d,
           stored_match collection field q s key d /\ date_fields_ok d = false
  end.

(** The request comes from the owner of the trade (of the collection) it
    addresses: it is authenticated, the record is found, and the record's
    [userId] is strictly equal to the [id] of the session's user.  This
    is what the routes test before they answer. *)
Definition trade_owner (req : routes.Request) (s : db) : Prop :=
  exists u trade : DocumentData,
    routes.user req = Some u
    /\ fst (FirebaseStorage.getTrade (parseInt (routes.params_id req)) s)
       = Ok (Some trade)
    /\ strict_equal (trade !! "userId") (u !! "id") = true.

Definition collection_owner (req : routes.Request) (s : db) : Prop :=
  exists u collection : DocumentData,
    routes.user req = Some u
    /\ fst (FirebaseStorage.getCollection (parseInt (routes.params_id req)) s)
       = Ok (Some collection)
    /\ strict_equal (collection !! "userId") (u !! "id") = true.

End Spec.

(** ** Proof automation *)

(** Unfolds the store operations of a monadic definition. *)
Ltac run_store :=
  unfold mbind, Firestore.M_bind, Firestore.ref_get, Firestore.ref_set,
    Firestore.ref_update, Firestore.ref_delete, Firestore.throw,
    Firestore.lift, mret, Firestore.M_ret, Firestore.exists_;
  cbn [Firestore.data Firestore.id Firestore.documents Firestore.counters
       fst snd negb].

(** Looks a field up in an object literal. *)
Ltac fields :=
  unfold Firestore.object_literal; cbn [foldl fst snd];
  repeat match goal with
         | H : _ ∉ _ :: _ |- _ => apply not_elem_of_cons in H as [? H]
         end;
  by simplify_map_eq.

(** Runs an update operation up to the normalisation of the re-read
    document, and then through its three outcomes. *)
Ltac run_update_start Hdoc :=
  run_store; rewrite ?Hdoc; cbn [negb]; cbv beta; rewrite ?Hdoc;
  cbn [Firestore.documents Firestore.counters]; rewrite ?lookup_insert_eq.



(** Decides the comparisons of a character against the codes it is not. *)
Ltac not_this_char :=
  repeat match goal with
         | |- context [(?a =? ?c)%Z] =>
             let E := fresh "E" in
             destruct (a =? c)%Z eqn:E; [apply Z.eqb_eq in E; lia|]
         end.

(** Closes the goal about a response that has been computed. *)
Ltac answered := cbn; first [reflexivity | (intros ?; discriminate)].

(** Runs a route up to the outcome of the read [get] it starts with. *)
Ltac run_route get Hreads :=
  unfold routes.ensureAuthenticated, routes.try_catch, mbind, Firestore.M_bind;
  match goal with
  | |- context [get ?id ?s] =>
      let Hs := fresh "Hs" in
      pose proof (Hreads id s) as Hs;
      destruct (get id s) as [[[t|]|e] s1] eqn:Hget; cbn [snd fst] in *; subst s1
  end.

(** * Properties *)

(** ** Exact integer arithmetic below 2^53 *)

Section Numbers.

Import JS.
Local Open Scope Z_scope.

Lemma shiftl_nat_pos (p : positive) (k : nat) :
  Z.pos (Nat.iter k xO p) = Z.pos p * 2 ^ Z.of_nat k.
Proof.
  induction k as [|k IH].
  - simpl. lia.
  - rewrite Nat2Z.inj_succ, Z.pow_succ_r by lia.
    change (Nat.iter (S k) xO p) with (xO (Nat.iter k xO p)).
    rewrite Pos2Z.inj_xO, IH. lia.
Qed.

Lemma strip_twos_shiftl (neg : bool) (p : positive) (k : nat) :
  strip_twos neg (Nat.iter k xO p) k = Int (if neg then Z.neg p else Z.pos p).
Proof.
  induction k as [|k IH]; [reflexivity|].
  change (Nat.iter (S k) xO p) with (xO (Nat.iter k xO p)).
  simpl. exact IH.
Qed.

Lemma round_half_even_1 (n : Z) : round_half_even n 1 = n.
Proof.
  unfold round_half_even. rewrite Z.mod_1_r, Z.div_1_r. reflexivity.
Qed.

Lemma floor_log2_rat_1 (p : Z) : 0 < p -> floor_log2_rat p 1 = Z.log2 p.
Proof.
  intros Hp. unfold floor_log2_rat.
  change (Z.log2 1) with 0. rewrite Z.sub_0_r.
  pose proof (Z.log2_nonneg p) as Hn.
  pose proof (Z.log2_spec p Hp) as [Hlo _].
  destruct (0 <=? Z.log2 p) eqn:E; [|lia].
  destruct (p <? 1 * 2 ^ Z.log2 p) eqn:E'; [lia|reflexivity].
Qed.

(** Integers up to 2^53 are binary64 values. *)
Lemma round_double_exact (p : Z) :
  0 < p <= 2 ^ 53 -> round_double false p 1 = Int p.
Proof.
  intros [Hp Hle].
  destruct (Z.eq_dec p (2 ^ 53)) as [->|Hne]; [vm_compute; reflexivity|].
  assert (Hlt : p < 2 ^ 53) by lia.
  assert (Hlog : Z.log2 p < 53) by (apply Z.log2_lt_pow2; lia).
  pose proof (Z.log2_nonneg p) as Hn.
  unfold round_double.
  destruct (p <=? 0) eqn:E0; [lia|].
  rewrite floor_log2_rat_1 by lia.
  rewrite Z.max_l by lia.
  destruct (0 <=? Z.log2 p - 52) eqn:Eu.
  - assert (Hu : Z.log2 p - 52 = 0) by lia. rewrite Hu.
    change (1 * 2 ^ 0) with 1. rewrite round_half_even_1.
    destruct (p =? 0) eqn:Ez; [lia|].
    change (2 ^ 0) with 1. rewrite Z.mul_1_r.
    destruct (2 ^ 1024 <=? p) eqn:Eo.
    + apply Z.leb_le in Eo. assert (2 ^ 53 < 2 ^ 1024) by (apply Z.pow_lt_mono_r; lia). lia.
    + simpl. unfold dyadic. simpl. f_equal. lia.
  - rewrite round_half_even_1.
    assert (Hpow : 0 < 2 ^ (- (Z.log2 p - 52))) by (apply Z.pow_pos_nonneg; lia).
    destruct (p * 2 ^ (- (Z.log2 p - 52)) =? 0) eqn:Ez; [nia|].
    simpl. unfold dyadic. rewrite Eu.
    destruct p as [|p'|p']; try lia.
    rewrite <- (Z2Nat.id (- (Z.log2 (Z.pos p') - 52))) at 1 by lia.
    rewrite <- shiftl_nat_pos.
    apply strip_twos_shiftl.
Qed.

(** Adding one is exact below 2^53 and has no effect at 2^53. *)
Lemma add_one (z : Z) :
  1 <= z <= 2 ^ 53 -> add (Int z) (Int 1) = Int (Z.min (z + 1) (2 ^ 53)).
Proof.
  intros Hz.
  destruct (Z.eq_dec z (2 ^ 53)) as [->|Hne]; [vm_compute; reflexivity|].
  rewrite Z.min_l by lia.
  unfold add, to_rat, of_rat.
  replace (z * 1 + 1 * 1) with (z + 1) by lia.
  destruct (z + 1 =? 0) eqn:E0; [lia|].
  destruct (z + 1 <? 0) eqn:E1; [lia|].
  rewrite Z.abs_eq by lia.
  change (1 * 1) with 1.
  apply round_double_exact. lia.
Qed.

End Numbers.

(** ** The platform model on examples *)

Section Examples.

Import JS Firestore firebase FirebaseStorage.
Local Open Scope Z_scope.

Example Number_examples :
  Number "42" = Int 42 /\ Number "abc" = NaN /\ Number " 12 " = Int 12
  /\ Number "0x1F" = Int 31 /\ Number "1e3" = Int 1000
  /\ Number "1.5" = Frac false 3 1 /\ Number "-0" = NegZero
  /\ Number "12px" = NaN /\ Number "Infinity" = Infinity false
  /\ Number "9007199254740993" = Int 9007199254740992.
Proof. vm_compute. repeat split. Qed.

Example toString_examples :
  toString (Int 42) = "42" /\ toString (Int (-7)) = "-7"
  /\ toString (Frac false 3 1) = "1.5" /\ toString NaN = "NaN"
  /\ toString (Number "0.1") = "0.1" /\ toString (Number "1e21") = "1e+21"
  /\ toString (Int (2 ^ 60)) = "1152921504606847000"
  /\ toString (Number "1e-7") = "1e-7".
Proof. vm_compute. repeat split. Qed.

Example add_examples :
  add (Int 41) (Int 1) = Int 42
  /\ add (Int (2 ^ 53)) (Int 1) = Int (2 ^ 53)
  /\ add (Int (2 ^ 53 + 2)) (Int 1) = Int (2 ^ 53 + 4)
  /\ add (Frac false 1 1) (Int 1) = Frac false 3 1.
Proof. vm_compute. repeat split. Qed.

(** Two accounts are created, the first one is upgraded, and a collection
    that was never created is deleted. *)
Example scenario :
  let alice := <["email" := VStr "a@x.com"]> {["username" := VStr "alice"]} in
  let bob := <["email" := VStr "b@x.com"]> {["username" := VStr "bob"]} in
  fst ((initializeCounters ≫= fun _ =>
        createUser (mkDate 1000) alice ≫= fun u1 =>
        createUser (mkDate 2000) bob ≫= fun u2 =>
        updateUserPlan (Int 1) "pro" ≫= fun u1' =>
        deleteCollection (Int 999) ≫= fun deleted =>
        mret (u1 !! "id", u1 !! "planType", u2 !! "id",
              u1' !! "planType", u1' !! "createdAt", deleted)) (mkDb ∅ None))
  = Ok (Some (VNum (Int 1)), Some (VStr "free"), Some (VNum (Int 2)),
        Some (VStr "pro"), Some (VDate (mkDate 1000)), false).
Proof. vm_compute. reflexivity. Qed.

End Examples.

(** ** The identifier allocator *)

Section Allocator.

Import JS Firestore firebase FirebaseStorage Spec.
Local Open Scope Z_scope.

Lemma getNextId_run (counterName : string) (s : db) (c : gmap string number) :
  counters s = Some c ->
  getNextId counterName s =
    (Ok (number_or_else (c !! counterName) (Int 1)),
     mkDb (documents s)
          (Some (<[counterName :=
                     add (number_or_else (c !! counterName) (Int 1)) (Int 1)]> c))).
Proof.
  intros Hc.
  unfold getNextId, runTransaction, mbind, M_bind, counters_get, counters_update.
  simpl. rewrite Hc. simpl.
  by rewrite insert_union_singleton_l.
Qed.

Lemma getNextId_no_counters (counterName : string) (s : db) :
  counters s = None -> getNextId counterName s = (Throw NOT_FOUND, s).
Proof.
  intros Hc.
  unfold getNextId, runTransaction, mbind, M_bind, counters_get, counters_update.
  simpl. by rewrite Hc.
Qed.

Lemma initializeCounters_fresh (d : gmap (string * string) (gmap string value)) :
  initializeCounters (mkDb d None) =
    (Ok tt, mkDb d (Some (list_to_map
       [("userId", Int 1); ("tradeId", Int 1); ("collectionId", Int 1)]))).
Proof. reflexivity. Qed.

Lemma fresh_counter (counterName : string) :
  number_or_else
    ((list_to_map [("userId", Int 1); ("tradeId", Int 1); ("collectionId", Int 1)]
        : gmap string number) !! counterName) (Int 1) = Int 1.
Proof.
  simpl.
  destruct (decide (counterName = "userId")) as [->|H1]; [by simplify_map_eq|].
  destruct (decide (counterName = "tradeId")) as [->|H2]; [by simplify_map_eq|].
  destruct (decide (counterName = "collectionId")) as [->|H3]; [by simplify_map_eq|].
  by simplify_map_eq.
Qed.

(** [n] calls starting from a counter holding [z]: the k-th call (from 0)
    returns min (z + k) 2^53, and the counter is left at min (z + n) 2^53. *)
Lemma calls_getNextId (counterName : string) (n : nat) :
  forall (z : Z) (d : gmap (string * string) (gmap string value))
         (c : gmap string number),
    1 <= z <= 2 ^ 53 ->
    number_or_else (c !! counterName) (Int 1) = Int z ->
    exists c',
      calls n (getNextId counterName) (mkDb d (Some c)) =
        (Ok ((fun k => Int (Z.min (z + Z.of_nat k) (2 ^ 53))) <$> seq 0 n),
         mkDb d (Some c'))
      /\ number_or_else (c' !! counterName) (Int 1)
         = Int (Z.min (z + Z.of_nat n) (2 ^ 53)).
Proof.
  induction n as [|n IH]; intros z d c Hz Hcur.
  - exists c. split; [reflexivity|].
    rewrite Hcur, Z.add_0_r, Z.min_l by lia. reflexivity.
  - cbn [calls]. unfold mbind at 1, M_bind at 1.
    rewrite (getNextId_run counterName _ c) by reflexivity.
    rewrite Hcur, add_one by lia. cbn [documents].
    set (z1 := Z.min (z + 1) (2 ^ 53)).
    destruct (IH z1 d (<[counterName := Int z1]> c)) as (c' & Hrun & Hc').
    { unfold z1. lia. }
    { rewrite lookup_insert_eq. simpl.
      destruct (z1 =? 0) eqn:E; [unfold z1 in E; lia|reflexivity]. }
    exists c'. split.
    + unfold mbind at 1, M_bind at 1. rewrite Hrun.
      unfold mret, M_ret. f_equal. f_equal.
      cbn [seq fmap list_fmap]. f_equal.
      * f_equal. lia.
      * rewrite <- seq_shift, <- list_fmap_compose.
        apply list_fmap_ext. intros _ k _. simpl. f_equal. unfold z1. lia.
    + rewrite Hc'. f_equal. unfold z1. lia.
Qed.

End Allocator.

Section AllocatorClaims.

Import JS Firestore firebase FirebaseStorage Spec.
Local Open Scope Z_scope.

(** C1 (amended).  A call of [getNextId] on an existing counters document
    returns the current value of the named counter (1 when the field is
    missing or falsy) and writes back that value plus one.  Starting from
    freshly initialised counters, N sequential calls for one counter
    return 1, 2, ..., N, as long as N is at most 2^53. *)
Theorem getNextId_sequence (counterName : string) :
  (forall (s : db) (c : gmap string number),
      counters s = Some c ->
      let currentValue := number_or_else (c !! counterName) (Int 1) in
      getNextId counterName s =
        (Ok currentValue,
         mkDb (documents s)
              (Some (<[counterName := add currentValue (Int 1)]> c))))
  /\ (forall (N : nat) (d : gmap (string * string) (gmap string value)),
      Z.of_nat N <= 2 ^ 53 ->
      exists s',
        (initializeCounters ≫= fun _ => calls N (getNextId counterName))
          (mkDb d None)
        = (Ok ((fun k => Int (Z.of_nat k)) <$> seq 1 N), s')).
Proof.
  split.
  - intros s c Hc. cbv zeta. by apply getNextId_run.
  - intros N d HN.
    unfold mbind at 1, M_bind at 1. rewrite initializeCounters_fresh.
    destruct (calls_getNextId counterName N 1 d _ ltac:(lia)
                (fresh_counter counterName)) as (c' & Hrun & _).
    eexists. rewrite Hrun. f_equal. f_equal.
    rewrite <- seq_shift, <- list_fmap_compose.
    apply list_fmap_ext. intros i k Hk.
    apply lookup_seq in Hk as [-> Hlt]. cbn [compose].
    f_equal. lia.
Qed.

Lemma getNextId_sequence_witness :
  exists s',
    (initializeCounters ≫= fun _ => calls 3 (getNextId "tradeId"))
      (mkDb ∅ None)
    = (Ok [Int 1; Int 2; Int 3], s').
Proof.
  apply (proj2 (getNextId_sequence "tradeId") 3%nat ∅).
  vm_compute. discriminate.
Defined.

Lemma lookup_returned (z : Z) (n k : nat) :
  (k < n)%nat ->
  ((fun k => Int (Z.min (z + Z.of_nat k) (2 ^ 53))) <$> seq 0 n) !! k
  = Some (Int (Z.min (z + Z.of_nat k) (2 ^ 53))).
Proof.
  intros Hk. rewrite list_lookup_fmap, lookup_seq_lt by lia. reflexivity.
Qed.

Lemma lookup_expected (n k : nat) :
  (k < n)%nat ->
  ((fun k => Int (Z.of_nat k)) <$> seq 1 n) !! k = Some (Int (Z.of_nat (S k))).
Proof.
  intros Hk. rewrite list_lookup_fmap, lookup_seq_lt by lia. reflexivity.
Qed.

(** C1 as stated fails for N = 2^53 + 1: the calls number 2^53 and
    2^53 + 1 both return 2^53, because 2^53 + 1 is not a binary64 value
    and the counter stops advancing. *)
Lemma getNextId_repeats_beyond_2_53 :
  exists ids s',
    (initializeCounters ≫= fun _ =>
       calls (Z.to_nat (2 ^ 53 + 1)) (getNextId "userId")) (mkDb ∅ None)
    = (Ok ids, s')
    /\ ids !! Z.to_nat (2 ^ 53 - 1) = Some (Int (2 ^ 53))
    /\ ids !! Z.to_nat (2 ^ 53) = Some (Int (2 ^ 53))
    /\ ids <> (fun k => Int (Z.of_nat k)) <$> seq 1 (Z.to_nat (2 ^ 53 + 1)).
Proof.
  unfold mbind at 1, M_bind at 1. rewrite initializeCounters_fresh.
  destruct (calls_getNextId "userId" (Z.to_nat (2 ^ 53 + 1)) 1 ∅ _ ltac:(lia)
              (fresh_counter "userId")) as (c' & Hrun & _).
  eexists _, _. split; [exact Hrun|].
  assert (H1 : ((fun k => Int (Z.min (1 + Z.of_nat k) (2 ^ 53))) <$>
                 seq 0 (Z.to_nat (2 ^ 53 + 1))) !! Z.to_nat (2 ^ 53 - 1)
               = Some (Int (2 ^ 53))).
  { rewrite lookup_returned by lia.
    rewrite Z2Nat.id by lia. rewrite Z.min_r by lia. reflexivity. }
  assert (H2 : ((fun k => Int (Z.min (1 + Z.of_nat k) (2 ^ 53))) <$>
                 seq 0 (Z.to_nat (2 ^ 53 + 1))) !! Z.to_nat (2 ^ 53)
               = Some (Int (2 ^ 53))).
  { rewrite lookup_returned by lia.
    rewrite Z2Nat.id by lia. rewrite Z.min_r by lia. reflexivity. }
  split; [exact H1|]. split; [exact H2|].
  intros Heq. rewrite Heq in H2.
  rewrite lookup_expected in H2 by lia.
  rewrite Nat2Z.inj_succ, Z2Nat.id in H2 by lia.
  assert (H3 : Z.succ (2 ^ 53) = 2 ^ 53) by congruence.
  lia.
Qed.

End AllocatorClaims.

(** ** The document normaliser *)

Section Normaliser.

Import JS Firestore firebase Spec.

Lemma spread_date_ok (data : DocumentData) (f : string) (o : DocumentData) :
  date_field_ok (data !! f) = true ->
  spread_date data f o =
    Ok (match data !! f with
        | Some (VTimestamp t) => <[f := VDate (Timestamp_toDate t)]> o
        | _ => o
        end).
Proof.
  unfold spread_date, date_field_ok.
  destruct (data !! f) as [v|]; [|reflexivity].
  destruct v; simpl; intros H; try discriminate;
    try (apply negb_true_iff in H; rewrite H); reflexivity.
Qed.

Lemma lookup_spread_ne (data : DocumentData) (f g : string) (o : DocumentData) :
  f <> g ->
  match data !! f with
  | Some (VTimestamp t) => <[f := VDate (Timestamp_toDate t)]> o
  | _ => o
  end !! g = o !! g.
Proof.
  intros Hne. destruct (data !! f) as [[]|]; try reflexivity.
  by rewrite lookup_insert_ne.
Qed.

Lemma lookup_spread_eq (data : DocumentData) (f : string) (o : DocumentData) :
  o !! f = data !! f ->
  match data !! f with
  | Some (VTimestamp t) => <[f := VDate (Timestamp_toDate t)]> o
  | _ => o
  end !! f = as_date <$> data !! f.
Proof.
  intros Ho. destruct (data !! f) as [[]|] eqn:E;
    rewrite ?lookup_insert_eq, ?Ho; reflexivity.
Qed.

Lemma date_fields_ok_each (data : DocumentData) :
  date_fields_ok data = true ->
  date_field_ok (data !! "createdAt") = true
  /\ date_field_ok (data !! "entryDate") = true
  /\ date_field_ok (data !! "exitDate") = true.
Proof.
  unfold date_fields_ok, date_fields. simpl.
  rewrite !andb_true_iff. tauto.
Qed.

Lemma spread_date_inv (data : DocumentData) (f : string) (o o' : DocumentData) :
  spread_date data f o = Ok o' -> date_field_ok (data !! f) = true.
Proof.
  unfold spread_date, date_field_ok.
  destruct (data !! f) as [v|]; [|reflexivity].
  destruct v; simpl; try reflexivity; try discriminate.
  - destruct b; [discriminate|reflexivity].
  - destruct (truthy_number n); [discriminate|reflexivity].
  - destruct (String.eqb s ""); [reflexivity|discriminate].
Qed.

(** A record is returned exactly for the documents whose date fields are
    as expected. *)
Lemma convertFirestoreData_returns (key : string) (data r : DocumentData) :
  convertFirestoreData (mkSnapshot key (Some data)) = Ok (Some r) ->
  date_fields_ok data = true.
Proof.
  unfold convertFirestoreData, exists_. cbn [Firestore.data Firestore.id negb].
  destruct (spread_date data "createdAt" _) as [o1|] eqn:E1; [|discriminate].
  cbn [mbind result_bind].
  destruct (spread_date data "entryDate" o1) as [o2|] eqn:E2; [|discriminate].
  cbn [mbind result_bind].
  destruct (spread_date data "exitDate" o2) as [o3|] eqn:E3; [|discriminate].
  intros _.
  apply spread_date_inv in E1, E2, E3.
  unfold date_fields_ok, date_fields. cbn [forallb].
  by rewrite E1, E2, E3.
Qed.

(** The record built from a document whose date fields are as expected. *)
Lemma convertFirestoreData_ok (key : string) (data : DocumentData) :
  date_fields_ok data = true ->
  exists r,
    convertFirestoreData (mkSnapshot key (Some data)) = Ok (Some r)
    /\ r !! "id" = Some (key_id key)
    /\ (forall f, f ∈ date_fields -> r !! f = as_date <$> data !! f)
    /\ (forall f, f <> "id" -> f ∉ date_fields -> r !! f = data !! f).
Proof.
  intros Hok. apply date_fields_ok_each in Hok as (Hc & Hn & Hx).
  unfold convertFirestoreData, exists_. cbn [Firestore.data Firestore.id negb].
  rewrite (spread_date_ok _ _ _ Hc). cbn [mbind result_bind].
  rewrite (spread_date_ok _ _ _ Hn). cbn [mbind result_bind].
  rewrite (spread_date_ok _ _ _ Hx). cbn [mbind result_bind].
  eexists. split; [reflexivity|].
  unfold object_literal, key_id, date_fields. cbn [foldl fst snd].
  assert (Hid : (if negb (isNaN (Number key)) then VNum (Number key) else VStr key)
                = (if isNaN (Number key) then VStr key else VNum (Number key)))
    by (destruct (isNaN (Number key)); reflexivity).
  rewrite Hid. clear Hid.
  split; [|split].
  - rewrite !lookup_spread_ne by done. apply lookup_insert_eq.
  - intros f Hf.
    rewrite !elem_of_cons, elem_of_nil in Hf.
    destruct Hf as [->|[->|[->|[]]]].
    + rewrite !lookup_spread_ne by done.
      apply lookup_spread_eq. by rewrite lookup_insert_ne.
    + rewrite lookup_spread_ne by done.
      apply lookup_spread_eq.
      rewrite lookup_spread_ne by done. by rewrite lookup_insert_ne.
    + apply lookup_spread_eq.
      rewrite !lookup_spread_ne by done. by rewrite lookup_insert_ne.
  - intros f Hid Hf.
    rewrite !not_elem_of_cons in Hf. destruct Hf as (H1 & H2 & H3 & _).
    rewrite !lookup_spread_ne by done. by rewrite lookup_insert_ne.
Qed.

(** C3.  For a document stored under [key], the record returned by
    [convertFirestoreData] has as identifier the number denoted by the key
    when the key denotes one, and the key string otherwise, whatever
    identifier field the payload holds; the key "42" gives the number 42
    and the key "abc" the string "abc".  A record is returned whenever the
    date fields of the document are timestamps. *)
Theorem convertFirestoreData_id (key : string) (data : DocumentData) :
  (forall r,
      convertFirestoreData (mkSnapshot key (Some data)) = Ok (Some r) ->
      r !! "id" =
        Some (if isNaN (Number key) then VStr key else VNum (Number key)))
  /\ (forall r,
      convertFirestoreData (mkSnapshot "42" (Some data)) = Ok (Some r) ->
      r !! "id" = Some (VNum (Int 42)))
  /\ (forall r,
      convertFirestoreData (mkSnapshot "abc" (Some data)) = Ok (Some r) ->
      r !! "id" = Some (VStr "abc"))
  /\ (date_fields_ok data = true ->
      exists r, convertFirestoreData (mkSnapshot key (Some data)) = Ok (Some r)).
Proof.
  assert (Hgen : forall k r,
             convertFirestoreData (mkSnapshot k (Some data)) = Ok (Some r) ->
             r !! "id" = Some (key_id k)).
  { intros k r Hr.
    destruct (convertFirestoreData_ok k data (convertFirestoreData_returns _ _ _ Hr))
      as (r' & Hr' & Hid & _).
    rewrite Hr in Hr'. by injection Hr' as ->. }
  split; [|split; [|split]].
  - intros r Hr. exact (Hgen key r Hr).
  - intros r Hr. exact (Hgen "42" r Hr).
  - intros r Hr. exact (Hgen "abc" r Hr).
  - intros Hok.
    destruct (convertFirestoreData_ok key data Hok) as (r & Hr & _).
    by exists r.
Qed.

Lemma convertFirestoreData_id_witness :
  exists r,
    convertFirestoreData
      (mkSnapshot "7" (Some (<["id" := VStr "other"]> {["name" := VStr "swing"]})))
    = Ok (Some r)
    /\ r !! "id" = Some (VNum (Int 7)).
Proof.
  destruct (convertFirestoreData_id "7"
              (<["id" := VStr "other"]> {["name" := VStr "swing"]}))
    as (Hid & _ & _ & Hex).
  destruct Hex as [r Hr]; [vm_compute; reflexivity|].
  exists r. split; [exact Hr|exact (Hid r Hr)].
Defined.



(** A date field holding [null] is passed through; one holding a string
    makes the normaliser throw. *)
Example convertFirestoreData_null_date :
  convertFirestoreData (mkSnapshot "1" (Some {["exitDate" := VNull]}))
  = Ok (Some (<["id" := VNum (Int 1)]> {["exitDate" := VNull]})).
Proof. vm_compute. reflexivity. Qed.

Example convertFirestoreData_string_date :
  convertFirestoreData
    (mkSnapshot "1" (Some {["entryDate" := VStr "2024-01-01"]}))
  = Throw TypeError.
Proof. vm_compute. reflexivity. Qed.

Lemma convertFirestoreData_existing (doc : DocumentSnapshot) :
  exists_ doc = true ->
  convertFirestoreData doc =
    Some <$>
      match data doc with
      | None => Ok ∅
      | Some data =>
          let id := if negb (isNaN (Number (id doc)))
                    then VNum (Number (id doc)) else VStr (id doc) in
          o ← spread_date data "createdAt" (object_literal data [("id", id)]);
          o ← spread_date data "entryDate" o;
          o ← spread_date data "exitDate" o;
          Ok o
      end.
Proof.
  unfold convertFirestoreData, exists_.
  destruct (data doc) as [d|]; [intros _|discriminate].
  cbn [negb]. cbv zeta.
  destruct (spread_date d "createdAt" _) as [o1|]; [|reflexivity].
  cbn [mbind result_bind].
  destruct (spread_date d "entryDate" o1) as [o2|]; [|reflexivity].
  cbn [mbind result_bind].
  destruct (spread_date d "exitDate" o2) as [o3|]; reflexivity.
Qed.

Lemma map_result_fmap {A B C : Type} (f : A -> result B) (g : A -> result C)
    (h : B -> C) (l : list A) :
  Forall (fun a => g a = h <$> f a) l ->
  map_result g l = map h <$> map_result f l.
Proof.
  induction 1 as [|a l Ha _ IH]; [reflexivity|].
  cbn [map_result]. rewrite Ha, IH.
  destruct (f a); [|reflexivity].
  cbn [fmap result_fmap mbind result_bind].
  destruct (map_result f l); reflexivity.
Qed.

(** C8.  On a query result set (all of whose documents exist),
    [convertFirestoreCollection] returns the records that
    [convertFirestoreData] returns for the documents of the set, in the
    same order; on an empty set it returns the empty sequence. *)
Theorem convertFirestoreCollection_map (snapshot : QuerySnapshot) :
  Forall (fun doc => exists_ doc = true) (docs snapshot) ->
  map Some <$> convertFirestoreCollection snapshot
    = map_result convertFirestoreData (docs snapshot)
  /\ (docs snapshot = [] -> convertFirestoreCollection snapshot = Ok []).
Proof.
  intros Hall. split.
  - unfold convertFirestoreCollection, empty.
    destruct (docs snapshot) as [|doc l] eqn:E; [reflexivity|].
    symmetry. apply map_result_fmap.
    eapply Forall_impl; [exact Hall|].
    intros d Hd. by apply convertFirestoreData_existing.
  - intros E. unfold convertFirestoreCollection, empty. by rewrite E.
Qed.

Lemma convertFirestoreCollection_map_witness :
  map Some <$> convertFirestoreCollection
    (mkQuery [mkSnapshot "1" (Some {["name" := VStr "a"]});
              mkSnapshot "abc" (Some {["id" := VNum (Int 9)]})])
  = map_result convertFirestoreData
      [mkSnapshot "1" (Some {["name" := VStr "a"]});
       mkSnapshot "abc" (Some {["id" := VNum (Int 9)]})].
Proof.
  refine (proj1 (convertFirestoreCollection_map (mkQuery _) _)).
  repeat constructor.
Defined.

End Normaliser.

(** ** The record store *)

Section RecordStore.

Import JS Firestore firebase FirebaseStorage Spec.

(** C2.  When no document is stored under the identifier, each of
    [updateTrade], [updateCollection], [updateUserPlan] and
    [updateUserStripeInfo] throws its not-found error and leaves the store
    as it was. *)
Theorem update_missing (s : db) (id : number) :
  (forall tradeUpdate,
      documents s !! (TRADES_COLLECTION, toString id) = None ->
      updateTrade id tradeUpdate s = (Throw (Error "Trade not found"), s))
  /\ (forall collectionUpdate,
      documents s !! (COLLECTIONS_COLLECTION, toString id) = None ->
      updateCollection id collectionUpdate s
        = (Throw (Error "Collection not found"), s))
  /\ (forall planType,
      documents s !! (USERS_COLLECTION, toString id) = None ->
      updateUserPlan id planType s = (Throw (Error "User not found"), s))
  /\ (forall customerId subscriptionId,
      documents s !! (USERS_COLLECTION, toString id) = None ->
      updateUserStripeInfo id customerId subscriptionId s
        = (Throw (Error "User not found"), s)).
Proof.
  repeat split; intros;
    [unfold updateTrade | unfold updateCollection
     | unfold updateUserPlan | unfold updateUserStripeInfo];
    run_store; rewrite H; reflexivity.
Qed.

Lemma update_missing_witness :
  updateTrade (Int 7) {["notes" := VStr "x"]} (mkDb ∅ None)
  = (Throw (Error "Trade not found"), mkDb ∅ None).
Proof.
  apply (proj1 (update_missing (mkDb ∅ None) (Int 7))).
  reflexivity.
Defined.

(** C4.  [deleteTrade] and [deleteCollection] return false, without
    throwing and without touching the store, when no document is stored
    under the identifier; otherwise they remove the document and return
    true, and a following [getTrade] (or [getCollection]) of the same
    identifier finds nothing. *)
Theorem delete_by_identifier (s : db) (id : number) :
  (documents s !! (TRADES_COLLECTION, toString id) = None ->
     deleteTrade id s = (Ok false, s))
  /\ (is_Some (documents s !! (TRADES_COLLECTION, toString id)) ->
      exists s',
        deleteTrade id s = (Ok true, s')
        /\ documents s' = delete (TRADES_COLLECTION, toString id) (documents s)
        /\ counters s' = counters s
        /\ getTrade id s' = (Ok None, s'))
  /\ (documents s !! (COLLECTIONS_COLLECTION, toString id) = None ->
      deleteCollection id s = (Ok false, s))
  /\ (is_Some (documents s !! (COLLECTIONS_COLLECTION, toString id)) ->
      exists s',
        deleteCollection id s = (Ok true, s')
        /\ documents s' = delete (COLLECTIONS_COLLECTION, toString id) (documents s)
        /\ counters s' = counters s
        /\ getCollection id s' = (Ok None, s')).
Proof.
  repeat split.
  - intros H. unfold deleteTrade. run_store. by rewrite H.
  - intros [d H]. eexists. split; [|split; [|split]].
    + unfold deleteTrade. run_store. rewrite H. reflexivity.
    + reflexivity.
    + reflexivity.
    + unfold getTrade, convertFirestoreData. run_store.
      rewrite lookup_delete_eq. reflexivity.
  - intros H. unfold deleteCollection. run_store. by rewrite H.
  - intros [d H]. eexists. split; [|split; [|split]].
    + unfold deleteCollection. run_store. rewrite H. reflexivity.
    + reflexivity.
    + reflexivity.
    + unfold getCollection, convertFirestoreData. run_store.
      rewrite lookup_delete_eq. reflexivity.
Qed.

Lemma delete_by_identifier_witness :
  deleteCollection (Int 999) (mkDb ∅ None) = (Ok false, mkDb ∅ None)
  /\ exists s',
       deleteTrade (Int 1)
         (mkDb {[(TRADES_COLLECTION, "1") := {["notes" := VNull]}]} None)
       = (Ok true, s')
       /\ getTrade (Int 1) s' = (Ok None, s').
Proof.
  split.
  - apply (proj1 (proj2 (proj2 (delete_by_identifier (mkDb ∅ None) (Int 999))))).
    reflexivity.
  - destruct (proj1 (proj2 (delete_by_identifier
        (mkDb {[(TRADES_COLLECTION, "1") := {["notes" := VNull]}]} None) (Int 1))))
      as (s' & Hd & _ & _ & Hg).
    + vm_compute. eexists. reflexivity.
    + exists s'. split; [exact Hd|exact Hg].
Defined.

Lemma createUser_run (s : db) (c : gmap string number) (now : Date)
    (insertUser : DocumentData) :
  counters s = Some c ->
  let id := number_or_else (c !! "userId") (Int 1) in
  let user :=
    object_literal insertUser
      [ ("id", VNum id); ("createdAt", VDate now);
        ("stripeCustomerId", VNull); ("stripeSubscriptionId", VNull);
        ("planType", VStr "free");
        ("avatar", or_else (insertUser !! "avatar") VNull) ] in
  createUser now insertUser s =
    (Ok user,
     mkDb (<[(USERS_COLLECTION, toString id) := encode user]> (documents s))
          (Some (<["userId" := add id (Int 1)]> c))).
Proof.
  intros Hc. cbv zeta. unfold createUser.
  unfold mbind at 1, M_bind at 1. rewrite (getNextId_run _ _ _ Hc).
  reflexivity.
Qed.





(** C10.  [createUser] sets planType to "free" and both Stripe references
    to null whatever the payload holds for these fields, in the returned
    and in the stored record; a truthy avatar of the payload is kept. *)
Theorem createUser_overrides (s : db) (c : gmap string number) (now : Date)
    (insertUser : DocumentData) :
  counters s = Some c ->
  exists id s1 user s',
    getNextId "userId" s = (Ok id, s1)
    /\ createUser now insertUser s = (Ok user, s')
    /\ user !! "planType" = Some (VStr "free")
    /\ user !! "stripeCustomerId" = Some VNull
    /\ user !! "stripeSubscriptionId" = Some VNull
    /\ (exists stored,
          documents s' !! (USERS_COLLECTION, toString id) = Some stored
          /\ stored !! "planType" = Some (VStr "free")
          /\ stored !! "stripeCustomerId" = Some VNull
          /\ stored !! "stripeSubscriptionId" = Some VNull)
    /\ (forall v, insertUser !! "avatar" = Some v -> truthy v = true ->
                  user !! "avatar" = Some v).
Proof.
  intros Hc. eexists _, _, _, _.
  split; [apply (getNextId_run _ _ _ Hc)|].
  split; [apply (createUser_run _ _ _ _ Hc)|].
  cbn [documents counters].
  split; [fields|]. split; [fields|]. split; [fields|]. split.
  - eexists. split; [apply lookup_insert_eq|].
    unfold encode. rewrite !lookup_fmap.
    repeat split.
    + replace (object_literal _ _ !! "planType") with (Some (VStr "free")) by (symmetry; fields).
      reflexivity.
    + replace (object_literal _ _ !! "stripeCustomerId") with (Some VNull) by (symmetry; fields).
      reflexivity.
    + replace (object_literal _ _ !! "stripeSubscriptionId") with (Some VNull) by (symmetry; fields).
      reflexivity.
  - intros v Hv Ht. unfold or_else. rewrite Hv, Ht. fields.
Qed.

Lemma createUser_overrides_witness :
  exists user s',
    createUser (mkDate 0)
      (<["planType" := VStr "pro"]>
         (<["stripeCustomerId" := VStr "cus_1"]>
            (<["avatar" := VStr "a.png"]> {["username" := VStr "bob"]})))
      (mkDb ∅ (Some {["userId" := Int 5]}))
    = (Ok user, s')
    /\ user !! "planType" = Some (VStr "free")
    /\ user !! "stripeCustomerId" = Some VNull
    /\ user !! "avatar" = Some (VStr "a.png").
Proof.
  destruct (createUser_overrides (mkDb ∅ (Some {["userId" := Int 5]}))
              {["userId" := Int 5]} (mkDate 0)
              (<["planType" := VStr "pro"]>
                 (<["stripeCustomerId" := VStr "cus_1"]>
                    (<["avatar" := VStr "a.png"]> {["username" := VStr "bob"]})))
              eq_refl)
    as (id & s1 & user & s' & _ & Hrun & Hp & Hc & _ & _ & Ha).
  exists user, s'. split; [exact Hrun|].
  split; [exact Hp|]. split; [exact Hc|].
  apply Ha; reflexivity.
Defined.


Lemma updateTrade_run (s : db) (id : number) (trade tradeUpdate : DocumentData) :
  documents s !! (TRADES_COLLECTION, toString id) = Some trade ->
  updateTrade id tradeUpdate s =
    (match convertFirestoreData
             (mkSnapshot (toString id) (Some (encode tradeUpdate ∪ trade))) with
     | Ok (Some updatedTrade) => Ok updatedTrade
     | Ok None => Throw (Error "Failed to update trade")
     | Throw e => Throw e
     end,
     mkDb (<[(TRADES_COLLECTION, toString id) := encode tradeUpdate ∪ trade]>
             (documents s))
          (counters s)).
Proof.
  intros Hdoc. unfold updateTrade. run_store. rewrite Hdoc.
  cbn [negb]. cbv beta. rewrite Hdoc.
  cbn [documents counters]. rewrite lookup_insert_eq.
  destruct (convertFirestoreData _) as [[r|]|]; reflexivity.
Qed.



End RecordStore.

(** ** From an identifier to its key and back *)

Section KeyRoundTrip.

Import JS.
Local Open Scope Z_scope.

Lemma ilog10_up_bounds (fuel : nat) (p q n m : Z) :
  n <= m -> m < n + Z.of_nat fuel -> p < q * 10 ^ m ->
  n <= ilog10_up fuel p q n <= m.
Proof.
  revert n. induction fuel as [|fuel IH]; intros n Hnm Hm Hp; [lia|].
  cbn [ilog10_up].
  destruct (p <? q * 10 ^ n) eqn:E; [lia|].
  apply Z.ltb_ge in E.
  assert (n <> m) by (intros ->; lia).
  specialize (IH (n + 1)). lia.
Qed.

Lemma significand_denotes (x : number) (p q n k s : Z) :
  significand x p q n k = Some s -> denotes x s (n - k) = true.
Proof.
  unfold significand.
  destruct (scaled p (k - n)) as [num den0].
  destruct (denotes x (num / (den0 * q)) (n - k)) eqn:Elo,
           (denotes x (num / (den0 * q) + 1) (n - k)) eqn:Ehi;
    try discriminate.
  - destruct (2 * (num mod (den0 * q)) ?= den0 * q).
    + destruct (Z.even _); intros [= <-]; assumption.
    + intros [= <-]; assumption.
    + intros [= <-]; assumption.
  - intros [= <-]; assumption.
  - intros [= <-]; assumption.
Qed.

Lemma significand_exact (z : Z) (n : Z) :
  1 <= z <= 2 ^ 53 -> is_Some (significand (Int z) z 1 n n).
Proof.
  intros Hz. unfold significand.
  rewrite Z.sub_diag. unfold scaled at 1. cbn [Z.leb Z.compare].
  change (10 ^ 0) with 1. rewrite !Z.mul_1_r, Z.div_1_r, Z.mod_1_r.
  assert (Hlo : denotes (Int z) z 0 = true).
  { unfold denotes, scaled. cbn [Z.leb Z.compare].
    change (10 ^ 0) with 1. rewrite Z.mul_1_r.
    apply bool_decide_eq_true. apply round_double_exact. lia. }
  rewrite Hlo.
  destruct (denotes (Int z) (z + 1) 0); cbn; eauto.
Qed.

Lemma shortest_found (x : number) (p q n : Z) (fuel : nat) :
  forall k,
    k <= n -> n - k < Z.of_nat fuel ->
    is_Some (significand x p q n n) ->
    exists s k', shortest fuel x p q n k = (s, k')
                 /\ k <= k' <= n /\ significand x p q n k' = Some s.
Proof.
  induction fuel as [|fuel IH]; intros k Hk Hf Hn; [lia|].
  cbn [shortest].
  destruct (significand x p q n k) as [s|] eqn:E.
  - exists s, k. split; [reflexivity|]. split; [lia|exact E].
  - assert (k <> n) by (intros ->; rewrite E in Hn; by destruct Hn).
    destruct (IH (k + 1)) as (s & k' & Hs & Hk' & Hsig); [lia|lia|exact Hn|].
    exists s, k'. split; [exact Hs|]. split; [lia|exact Hsig].
Qed.

Lemma denotes_pos (z s e : Z) :
  1 <= z -> 0 <= e -> denotes (Int z) s e = true ->
  0 < s /\ round_double false (s * 10 ^ e) 1 = Int z.
Proof.
  intros Hz He. unfold denotes, scaled.
  destruct (0 <=? e) eqn:E; [|lia].
  intros H. apply bool_decide_eq_true in H. split; [|exact H].
  destruct (Z.lt_decidable 0 s) as [|Hs]; [assumption|].
  exfalso. unfold round_double in H.
  assert (0 < 10 ^ e) by (apply Z.pow_pos_nonneg; lia).
  destruct (s * 10 ^ e <=? 0) eqn:E0; [|apply Z.leb_gt in E0; nia].
  cbn in H. injection H as H. lia.
Qed.

Lemma code_units_cons (c : Ascii.ascii) (s : string) :
  code_units (String c s) = Z.of_N (Ascii.N_of_ascii c) :: code_units s.
Proof. reflexivity. Qed.

Lemma code_units_app (s1 s2 : string) :
  code_units (s1 +:+ s2) = code_units s1 ++ code_units s2.
Proof.
  induction s1 as [|c s1 IH]; [reflexivity|].
  change (String c s1 +:+ s2) with (String c (s1 +:+ s2)).
  rewrite !code_units_cons, IH. reflexivity.
Qed.

Lemma code_units_digit_char (d : Z) (s : string) :
  0 <= d <= 9 -> code_units (String (digit_char d) s) = (48 + d) :: code_units s.
Proof.
  intros Hd. rewrite code_units_cons. f_equal. unfold digit_char.
  rewrite Ascii.N_ascii_embedding by lia. lia.
Qed.

Lemma digit_10 (v : Z) : 0 <= v <= 9 -> digit 10 (48 + v) = Some v.
Proof.
  intros Hv. unfold digit.
  destruct (48 <=? 48 + v) eqn:E1; [|lia].
  destruct (48 + v <=? 57) eqn:E2; [|lia].
  cbn [andb]. replace (48 + v - 48) with v by lia.
  destruct (v <? 10) eqn:E3; [reflexivity|lia].
Qed.

Lemma decimal_go_S (fuel : nat) (z : Z) (acc : string) :
  decimal_go (S fuel) z acc =
    if z <? 10 then String (digit_char (z mod 10)) acc
    else decimal_go fuel (z / 10) (String (digit_char (z mod 10)) acc).
Proof. reflexivity. Qed.

(** The numeral written by [decimal_go] is a run of digits that reads back
    as the number written. *)
Lemma decimal_go_digits (fuel : nat) :
  forall (z : Z) (acc : string),
    0 <= z < 2 ^ Z.of_nat (S fuel) ->
    exists (D : list Z) (d : Z),
      code_units (decimal_go (S fuel) z acc) = D ++ code_units acc
      /\ 0 < d /\ D <> []
      /\ Forall (fun c => 48 <= c <= 57) D
      /\ forall rest a n,
           digits 10 (D ++ rest) a n = digits 10 rest (a * 10 ^ d + z) (n + d).
Proof.
  induction fuel as [|fuel IH]; intros z acc Hz.
  - change (2 ^ Z.of_nat 1) with 2 in Hz.
    rewrite decimal_go_S. destruct (z <? 10) eqn:E; [|lia].
    rewrite Z.mod_small by lia.
    exists [48 + z], 1. rewrite code_units_digit_char by lia.
    split; [reflexivity|]. split; [lia|]. split; [discriminate|].
    split; [constructor; [lia|constructor]|].
    intros rest a n. cbn [app digits]. rewrite digit_10 by lia.
    f_equal; lia.
  - assert (Hm : 0 <= z mod 10 <= 9) by (pose proof (Z.mod_pos_bound z 10); lia).
    rewrite decimal_go_S. destruct (z <? 10) eqn:E.
    + rewrite Z.mod_small by lia.
      exists [48 + z], 1. rewrite code_units_digit_char by lia.
      split; [reflexivity|]. split; [lia|]. split; [discriminate|].
      split; [constructor; [lia|constructor]|].
      intros rest a n. cbn [app digits]. rewrite digit_10 by lia.
      f_equal; lia.
    + apply Z.ltb_ge in E.
      destruct (IH (z / 10) (String (digit_char (z mod 10)) acc))
        as (D & d & HD & Hd & Hne & Hall & Hparse).
      { split; [apply Z.div_pos; lia|].
        apply Z.div_lt_upper_bound; [lia|].
        rewrite Nat2Z.inj_succ, Z.pow_succ_r in Hz by lia. lia. }
      exists (D ++ [48 + z mod 10]), (d + 1).
      split.
      { rewrite HD, code_units_digit_char by lia. by rewrite <- app_assoc. }
      split; [lia|]. split; [by destruct D|].
      split.
      { apply Forall_app. split; [exact Hall|]. constructor; [lia|constructor]. }
      intros rest a n. rewrite <- app_assoc, Hparse.
      cbn [app digits]. rewrite digit_10 by lia.
      rewrite Z.pow_add_r by lia. f_equal; [|lia].
      pose proof (Z.div_mod z 10). change (10 ^ 1) with 10. lia.
Qed.

Lemma decimal_digits (s : Z) :
  0 < s ->
  exists (D : list Z) (d : Z),
    code_units (decimal s) = D
    /\ 0 < d /\ D <> []
    /\ Forall (fun c => 48 <= c <= 57) D
    /\ forall rest a n,
         digits 10 (D ++ rest) a n = digits 10 rest (a * 10 ^ d + s) (n + d).
Proof.
  intros Hs. unfold decimal.
  destruct (decimal_go_digits (Z.to_nat (Z.log2 s)) s "")
    as (D & d & HD & Hrest).
  { split; [lia|]. rewrite Nat2Z.inj_succ, Z2Nat.id by apply Z.log2_nonneg.
    apply Z.log2_spec. lia. }
  exists D, d. split; [|exact Hrest].
  rewrite HD. cbn. apply app_nil_r.
Qed.

Lemma zeros_digits (e : nat) :
  Forall (fun c => 48 <= c <= 57) (code_units (zeros e))
  /\ forall rest a n,
       digits 10 (code_units (zeros e) ++ rest) a n
       = digits 10 rest (a * 10 ^ Z.of_nat e) (n + Z.of_nat e).
Proof.
  induction e as [|e [IHa IHp]].
  - split; [constructor|]. intros rest a n. cbn. f_equal; lia.
  - cbn [zeros]. rewrite code_units_digit_char by lia. split.
    + constructor; [lia|exact IHa].
    + intros rest a n. cbn [app digits]. rewrite digit_10 by lia.
      rewrite IHp, Nat2Z.inj_succ, Z.pow_succ_r by lia. f_equal; lia.
Qed.


Lemma skip_ws_digit (fuel : nat) (c : Z) (r : list Z) :
  48 <= c <= 57 -> skip_ws fuel StrWhiteSpaceChar (c :: r) = c :: r.
Proof.
  intros Hc. destruct fuel as [|fuel]; [reflexivity|].
  cbn [skip_ws]. unfold StrWhiteSpaceChar. cbn [drop_any drop_prefix].
  not_this_char. reflexivity.
Qed.

Lemma skip_ws_rev_digit (fuel : nat) (c : Z) (r : list Z) :
  48 <= c <= 57 ->
  skip_ws fuel (map (@rev Z) StrWhiteSpaceChar) (c :: r) = c :: r.
Proof.
  intros Hc. destruct fuel as [|fuel]; [reflexivity|].
  cbn [skip_ws]. unfold StrWhiteSpaceChar. cbn [map rev app drop_any drop_prefix].
  not_this_char. reflexivity.
Qed.

Lemma trim_digits (l : list Z) :
  Forall (fun c => 48 <= c <= 57) l -> trim l = l.
Proof.
  intros Hall. unfold trim.
  destruct l as [|c r]; [reflexivity|].
  rewrite skip_ws_digit by (by inversion Hall).
  destruct (rev (c :: r)) as [|c' r'] eqn:E.
  - apply (f_equal (@length Z)) in E. rewrite length_rev in E. discriminate.
  - rewrite skip_ws_rev_digit.
    + by rewrite <- E, rev_involutive.
    + assert (Hin : In c' (rev (c :: r))) by (rewrite E; by left).
      apply in_rev in Hin. rewrite Forall_forall in Hall.
      apply Hall. by apply list_elem_of_In.
Qed.

Lemma digit_cases (c : Z) :
  48 <= c <= 57 ->
  c = 48 \/ c = 49 \/ c = 50 \/ c = 51 \/ c = 52 \/ c = 53 \/ c = 54
  \/ c = 55 \/ c = 56 \/ c = 57.
Proof. lia. Qed.

(** [Number] on a non-empty run of decimal digits. *)
Lemma Number_digits (str : string) (V d : Z) :
  Forall (fun c => 48 <= c <= 57) (code_units str) ->
  digits 10 (code_units str) 0 0 = (V, d, []) ->
  0 < d ->
  Number str = round_double false V 1.
Proof.
  intros Hall Hdig Hd. unfold Number. rewrite trim_digits by exact Hall.
  destruct (code_units str) as [|c1 rest] eqn:EL.
  { cbn in Hdig. injection Hdig as <- <-. lia. }
  assert (Hdef : StrUnsignedDecimalLiteral false (c1 :: rest)
                 = round_double false V 1).
  { unfold StrUnsignedDecimalLiteral.
    rewrite bool_decide_eq_false_2.
    2:{ intros Heq. injection Heq as -> _. inversion Hall; lia. }
    rewrite Hdig.
    destruct (d + 0 =? 0) eqn:E0; [lia|].
    unfold decimal_value. cbn [Z.opp Z.leb Z.compare].
    change (10 ^ 0) with 1. by rewrite Z.mul_1_r. }
  inversion Hall as [|? ? Hc1 Hrest]; subst.
  destruct (digit_cases c1 Hc1) as [->|[->|[->|[->|[->|[->|[->|[->|[->| ->]]]]]]]]];
    try exact Hdef.
  destruct rest as [|c2 rest']; [exact Hdef|].
  inversion Hrest as [|? ? Hc2 _]; subst.
  destruct (digit_cases c2 Hc2) as [->|[->|[->|[->|[->|[->|[->|[->|[->| ->]]]]]]]]];
    exact Hdef.
Qed.

(** The key of an integer identifier between 1 and 2^53 is a non-empty
    run of decimal digits denoting a number that rounds to the
    identifier. *)
Lemma toString_Int_digits (z : Z) :
  1 <= z <= 2 ^ 53 ->
  exists (d V : Z),
    0 < d /\ 0 < V
    /\ code_units (toString (Int z)) <> []
    /\ Forall (fun c => 48 <= c <= 57) (code_units (toString (Int z)))
    /\ (forall rest a n,
          digits 10 (code_units (toString (Int z)) ++ rest) a n
          = digits 10 rest (a * 10 ^ d + V) (n + d))
    /\ round_double false V 1 = Int z.
Proof.
  intros Hz. unfold toString.
  destruct (z =? 0) eqn:E0; [lia|].
  destruct (z <? 0) eqn:E1; [lia|].
  unfold toString_pos.
  assert (Hn0 : 1 <= magnitude10 z 1 <= 16).
  { unfold magnitude10. destruct (1 <=? z) eqn:E; [|lia].
    apply ilog10_up_bounds; [lia|lia|].
    assert (2 ^ 53 < 10 ^ 16) by (vm_compute; reflexivity). lia. }
  set (n0 := magnitude10 z 1) in *.
  destruct (shortest_found (Int z) z 1 n0 17 1) as (s0 & k0 & Hs & Hk & Hsig);
    [lia|lia|by apply significand_exact|].
  rewrite Hs.
  apply significand_denotes in Hsig.
  assert (Hval : exists s k n,
             (if s0 =? 10 ^ k0 then (1, 1, n0 + 1) else (s0, k0, n0)) = (s, k, n)
             /\ 1 <= k <= n /\ n <= 17
             /\ denotes (Int z) s (n - k) = true).
  { destruct (s0 =? 10 ^ k0) eqn:E.
    - apply Z.eqb_eq in E. exists 1, 1, (n0 + 1).
      split; [reflexivity|]. split; [lia|]. split; [lia|].
      revert Hsig. unfold denotes, scaled.
      destruct (0 <=? n0 - k0) eqn:Ea; [|lia].
      destruct (0 <=? n0 + 1 - 1) eqn:Eb; [|lia].
      replace (n0 + 1 - 1) with (k0 + (n0 - k0)) by lia.
      rewrite Z.pow_add_r by lia. rewrite E. by rewrite Z.mul_1_l.
    - exists s0, k0, n0. split; [reflexivity|]. split; [lia|]. split; [lia|].
      exact Hsig. }
  destruct Hval as (s & k & n & -> & Hkn & Hn & Hden).
  destruct (denotes_pos z s (n - k) ltac:(lia) ltac:(lia) Hden) as [Hs0 Hround].
  destruct ((k <=? n) && (n <=? 21)) eqn:Efmt.
  2:{ apply andb_false_iff in Efmt as [E|E]; lia. }
  destruct (decimal_digits s Hs0) as (D & d & HD & Hd & Hne & Hall & Hparse).
  destruct (zeros_digits (Z.to_nat (n - k))) as [Hzall Hzparse].
  assert (0 < 10 ^ (n - k)) by (apply Z.pow_pos_nonneg; lia).
  exists (d + (n - k)), (s * 10 ^ (n - k)).
  split; [lia|]. split; [nia|].
  rewrite code_units_app, HD.
  split; [by destruct D|]. split; [apply Forall_app; by split|].
  split; [|exact Hround].
  intros rest a m. rewrite <- app_assoc, Hparse, Hzparse.
  rewrite Z2Nat.id by lia. rewrite Z.pow_add_r by lia. f_equal; lia.
Qed.

Lemma Number_toString_Int (z : Z) :
  1 <= z <= 2 ^ 53 -> Number (toString (Int z)) = Int z.
Proof.
  intros Hz.
  destruct (toString_Int_digits z Hz) as (d & V & Hd & HV & Hne & Hall & Hparse & Hround).
  transitivity (round_double false V 1); [|exact Hround].
  apply (Number_digits _ _ d); [exact Hall| |exact Hd].
  rewrite <- (app_nil_r (code_units _)), Hparse. cbn [digits].
  replace (0 * 10 ^ d + V) with V by lia.
  replace (0 + d) with d by lia. reflexivity.
Qed.

(** [parseInt] reads the key of an identifier back, and ignores whatever
    follows the key as long as it does not start with a digit. *)
Lemma parseInt_toString_Int (z : Z) (suffix : string) :
  1 <= z <= 2 ^ 53 ->
  match code_units suffix with
  | c :: _ => ~ (48 <= c <= 57)
  | [] => True
  end ->
  parseInt (toString (Int z) +:+ suffix) = Int z.
Proof.
  intros Hz Hsuf.
  destruct (toString_Int_digits z Hz) as (d & V & Hd & HV & Hne & Hall & Hparse & Hround).
  unfold parseInt. rewrite code_units_app.
  destruct (code_units (toString (Int z))) as [|c1 D] eqn:EL; [done|].
  inversion Hall as [|? ? Hc1 HD]; subst.
  cbn [app]. rewrite skip_ws_digit by exact Hc1.
  assert (Hdig : digits 10 (c1 :: D ++ code_units suffix) 0 0 = (V, d, code_units suffix)).
  { change (c1 :: D ++ code_units suffix) with ((c1 :: D) ++ code_units suffix).
    rewrite Hparse. replace (0 * 10 ^ d + V) with V by lia.
    replace (0 + d) with d by lia.
    destruct (code_units suffix) as [|c r]; [reflexivity|].
    cbn [digits]. unfold digit.
    destruct ((48 <=? c) && (c <=? 57)) eqn:E1.
    { apply andb_true_iff in E1 as [E1 E1']. lia. }
    destruct ((97 <=? c) && (c <=? 102)) eqn:E2.
    { apply andb_true_iff in E2 as [E2 E2'].
      destruct (c - 87 <? 10) eqn:E; [lia|reflexivity]. }
    destruct ((65 <=? c) && (c <=? 70)) eqn:E3.
    { apply andb_true_iff in E3 as [E3 E3'].
      destruct (c - 55 <? 10) eqn:E; [lia|reflexivity]. }
    reflexivity. }
  assert (Hres : (let '(v, n, _) := digits 10 (c1 :: D ++ code_units suffix) 0 0 in
                  if n =? 0 then NaN else round_double false v 1) = Int z).
  { rewrite Hdig. destruct (d =? 0) eqn:E; [lia|exact Hround]. }
  assert (Hnot0 : c1 = 48 -> D <> []).
  { intros -> ->. specialize (Hparse [] 0 0). cbn in Hparse.
    injection Hparse as HV0 _. lia. }
  destruct (digit_cases c1 Hc1) as [->|[->|[->|[->|[->|[->|[->|[->|[->| ->]]]]]]]]];
    try exact Hres.
  destruct D as [|c2 D']; [by destruct Hnot0|].
  inversion HD as [|? ? Hc2 _]; subst.
  destruct (digit_cases c2 Hc2) as [->|[->|[->|[->|[->|[->|[->|[->|[->| ->]]]]]]]]];
    exact Hres.
Qed.

End KeyRoundTrip.

(** ** Writing a record and reading it back *)

Section WriteRead.

Import JS Firestore firebase FirebaseStorage Spec.
Local Open Scope Z_scope.

Lemma key_id_toString (z : Z) :
  1 <= z <= 2 ^ 53 -> key_id (toString (Int z)) = VNum (Int z).
Proof.
  intros Hz. unfold key_id. by rewrite Number_toString_Int.
Qed.

Lemma toString_Int_inj (a b : Z) :
  1 <= a <= 2 ^ 53 -> 1 <= b <= 2 ^ 53 ->
  toString (Int a) = toString (Int b) -> a = b.
Proof.
  intros Ha Hb Heq. apply (f_equal Number) in Heq.
  rewrite !Number_toString_Int in Heq by assumption. by injection Heq.
Qed.

(** X1.  A document stored under the key of an integer identifier between
    1 and 2^53 is normalised to a record carrying that identifier: what
    [id.toString()] writes as the key, [Number(doc.id)] reads back. *)
Theorem convertFirestoreData_recovers_id (z : Z) (data r : DocumentData) :
  1 <= z <= 2 ^ 53 ->
  convertFirestoreData (mkSnapshot (toString (Int z)) (Some data)) = Ok (Some r) ->
  r !! "id" = Some (VNum (Int z)).
Proof.
  intros Hz Hr.
  destruct (convertFirestoreData_ok (toString (Int z)) data
              (convertFirestoreData_returns _ _ _ Hr))
    as (r' & Hr' & Hid & _).
  rewrite Hr in Hr'. injection Hr' as <-.
  by rewrite Hid, key_id_toString.
Qed.

Lemma convertFirestoreData_recovers_id_witness :
  exists r,
    convertFirestoreData
      (mkSnapshot (toString (Int 9007199254740991)) (Some {["id" := VStr "x"]}))
    = Ok (Some r)
    /\ r !! "id" = Some (VNum (Int 9007199254740991)).
Proof.
  eexists. split; [vm_compute; reflexivity|].
  apply (convertFirestoreData_recovers_id 9007199254740991 {["id" := VStr "x"]}).
  - vm_compute. split; discriminate.
  - vm_compute. reflexivity.
Defined.

Lemma Timestamp_round_trip (d : Date) :
  Timestamp_toDate (Timestamp_fromDate d) = d.
Proof.
  destruct d as [ms]. unfold Timestamp_toDate, Timestamp_fromDate. cbn.
  f_equal.
  pose proof (Z.div_mod ms 1000 ltac:(lia)) as Hdm.
  pose proof (Z.mod_pos_bound ms 1000 ltac:(lia)) as Hb.
  replace (ms - ms / 1000 * 1000) with (ms mod 1000) by lia.
  replace ((ms mod 1000 * 1000000 + 500000) / 1000000) with (ms mod 1000).
  - lia.
  - apply Z.div_unique with (r := 500000); lia.
Qed.

Lemma elem_of_date_fields (f : string) :
  f ∈ date_fields <-> f = "createdAt" \/ f = "entryDate" \/ f = "exitDate".
Proof.
  unfold date_fields. rewrite !elem_of_cons, elem_of_nil. tauto.
Qed.

Lemma survives_read (f : string) (v : value) :
  survives f v = true ->
  (f ∈ date_fields ->
     date_field_ok (Some (encode_value v)) = true
     /\ as_date (encode_value v) = v)
  /\ (f ∉ date_fields -> encode_value v = v).
Proof.
  unfold survives. case_bool_decide as Hf.
  - intros Hv. split; [intros _|done].
    destruct v; cbn in *; try discriminate; try (split; [assumption|reflexivity]).
    split; [reflexivity|]. by rewrite Timestamp_round_trip.
  - intros Hv. split; [done|intros _].
    destruct v; cbn in *; try discriminate; reflexivity.
Qed.

(** A record whose fields all survive, written under the key of its
    identifier, is read back as it was. *)
Lemma write_read (z : Z) (o : DocumentData) :
  1 <= z <= 2 ^ 53 ->
  o !! "id" = Some (VNum (Int z)) ->
  (forall f v, f <> "id" -> o !! f = Some v -> survives f v = true) ->
  convertFirestoreData (mkSnapshot (toString (Int z)) (Some (encode o)))
  = Ok (Some o).
Proof.
  intros Hz Hid Hsur.
  assert (Hfield : forall f, f ∈ date_fields ->
            date_field_ok (encode o !! f) = true
            /\ as_date <$> encode o !! f = o !! f).
  { intros f Hf. unfold encode. rewrite lookup_fmap.
    destruct (o !! f) as [v|] eqn:E; [|done].
    assert (Hne : f <> "id").
    { intros ->. apply elem_of_date_fields in Hf as [|[|]]; discriminate. }
    destruct (proj1 (survives_read f v (Hsur f v Hne E)) Hf) as [H1 H2].
    cbn [fmap option_fmap option_map]. by rewrite H1, H2. }
  assert (Hok : date_fields_ok (encode o) = true).
  { unfold date_fields_ok, date_fields. cbn [forallb].
    rewrite (proj1 (Hfield "createdAt" (proj2 (elem_of_date_fields _) (or_introl eq_refl)))).
    rewrite (proj1 (Hfield "entryDate"
                      (proj2 (elem_of_date_fields _) (or_intror (or_introl eq_refl))))).
    rewrite (proj1 (Hfield "exitDate"
                      (proj2 (elem_of_date_fields _) (or_intror (or_intror eq_refl))))).
    reflexivity. }
  destruct (convertFirestoreData_ok (toString (Int z)) _ Hok)
    as (r & Hr & Hrid & Hdates & Hrest).
  rewrite Hr. do 2 f_equal. apply map_eq. intros f.
  destruct (decide (f = "id")) as [->|Hne].
  - by rewrite Hrid, Hid, key_id_toString.
  - destruct (decide (f ∈ date_fields)) as [Hin|Hnin].
    + rewrite Hdates by done. by apply Hfield.
    + rewrite Hrest by done. unfold encode. rewrite lookup_fmap.
      destruct (o !! f) as [v|] eqn:E; [|done].
      cbn. f_equal. by apply (survives_read f v (Hsur f v Hne E)).
Qed.

End WriteRead.

Section CreateThenGet.

Import JS Firestore firebase FirebaseStorage Spec.
Local Open Scope Z_scope.

Lemma or_else_survives (f : string) (o : option value) :
  f ∉ date_fields ->
  (forall v, o = Some v -> survives f v = true) ->
  survives f (or_else o VNull) = true.
Proof.
  intros Hf Ho. unfold or_else.
  destruct o as [v|]; [destruct (truthy v); [by apply Ho|]|];
    unfold survives; by rewrite bool_decide_eq_false_2.
Qed.

Lemma not_date_field (f : string) :
  f <> "createdAt" -> f <> "entryDate" -> f <> "exitDate" -> f ∉ date_fields.
Proof. rewrite elem_of_date_fields. tauto. Qed.

Lemma getTrade_stored (s : db) (id : number) (data : DocumentData) :
  documents s !! (TRADES_COLLECTION, toString id) = Some data ->
  getTrade id s = (convertFirestoreData (mkSnapshot (toString id) (Some data)), s).
Proof.
  intros Hdoc. unfold getTrade. run_store. rewrite Hdoc.
  by destruct (convertFirestoreData _).
Qed.

Lemma getCollection_stored (s : db) (id : number) (data : DocumentData) :
  documents s !! (COLLECTIONS_COLLECTION, toString id) = Some data ->
  getCollection id s
  = (convertFirestoreData (mkSnapshot (toString id) (Some data)), s).
Proof.
  intros Hdoc. unfold getCollection. run_store. rewrite Hdoc.
  by destruct (convertFirestoreData _).
Qed.

Lemma getTrade_missing (s : db) (id : number) :
  documents s !! (TRADES_COLLECTION, toString id) = None ->
  getTrade id s = (Ok None, s).
Proof. intros Hdoc. unfold getTrade, convertFirestoreData. run_store. by rewrite Hdoc. Qed.

Lemma getCollection_missing (s : db) (id : number) :
  documents s !! (COLLECTIONS_COLLECTION, toString id) = None ->
  getCollection id s = (Ok None, s).
Proof.
  intros Hdoc. unfold getCollection, convertFirestoreData. run_store.
  by rewrite Hdoc.
Qed.



End CreateThenGet.

(** ** More on the identifier allocator *)

Section AllocatorExtras.

Import JS Firestore firebase FirebaseStorage Spec.
Local Open Scope Z_scope.

(** X3.  Without a counters document the allocator's transaction fails:
    each create operation throws the provider's not-found error and
    writes nothing. *)
Theorem create_without_counters (s : db) (now : Date) (insert : DocumentData) :
  counters s = None ->
  createUser now insert s = (Throw NOT_FOUND, s)
  /\ createTrade now insert s = (Throw NOT_FOUND, s)
  /\ createCollection now insert s = (Throw NOT_FOUND, s).
Proof.
  intros Hc. repeat split;
    [unfold createUser|unfold createTrade|unfold createCollection];
    unfold mbind at 1, M_bind at 1;
    by rewrite (getNextId_no_counters _ _ Hc).
Qed.

Lemma create_without_counters_witness :
  createTrade (mkDate 0) {["symbol" := VStr "AAPL"]} (mkDb ∅ None)
  = (Throw NOT_FOUND, mkDb ∅ None).
Proof.
  apply (proj1 (proj2 (create_without_counters (mkDb ∅ None) (mkDate 0)
                         {["symbol" := VStr "AAPL"]} eq_refl))).
Defined.

(** X4.  Allocations for two different counters do not interfere: taken
    in either order they return the same two identifiers and leave the
    same store. *)
Theorem getNextId_commute (a b : string) (s : db) (c : gmap string number) :
  a <> b ->
  counters s = Some c ->
  (getNextId a ≫= fun x => getNextId b ≫= fun y => mret (x, y)) s
  = (getNextId b ≫= fun y => getNextId a ≫= fun x => mret (x, y)) s.
Proof.
  intros Hab Hc. unfold mbind, M_bind.
  rewrite (getNextId_run a s c Hc), (getNextId_run b s c Hc).
  rewrite (getNextId_run b (mkDb _ _) _ eq_refl),
    (getNextId_run a (mkDb _ _) _ eq_refl).
  cbn [documents counters].
  rewrite !lookup_insert_ne by done.
  unfold mret, M_ret. f_equal. f_equal. f_equal.
  by apply insert_insert_ne.
Qed.

Lemma getNextId_commute_witness :
  (getNextId "userId" ≫= fun x => getNextId "tradeId" ≫= fun y => mret (x, y))
    (mkDb ∅ (Some {["userId" := Int 3]}))
  = (getNextId "tradeId" ≫= fun y => getNextId "userId" ≫= fun x => mret (x, y))
      (mkDb ∅ (Some {["userId" := Int 3]})).
Proof.
  apply (getNextId_commute "userId" "tradeId" _ {["userId" := Int 3]});
    [discriminate|reflexivity].
Defined.

(** X5.  [initializeCounters] leaves an existing counters document as it
    is; run again after n allocations from a fresh store (n below 2^53),
    it does not reset the counter: the next identifier is n + 1. *)
Theorem initializeCounters_keeps (counterName : string) :
  (forall (s : db) (c : gmap string number),
      counters s = Some c -> initializeCounters s = (Ok tt, s))
  /\ (forall (n : nat) (d : gmap (string * string) (gmap string value)),
      Z.of_nat n < 2 ^ 53 ->
      exists s',
        (initializeCounters ≫= fun _ =>
         calls n (getNextId counterName) ≫= fun _ =>
         initializeCounters ≫= fun _ =>
         getNextId counterName) (mkDb d None)
        = (Ok (Int (Z.of_nat n + 1)), s')).
Proof.
  split.
  - intros [docs cs] c Hc. cbn in Hc. subst cs. reflexivity.
  - intros n d Hn.
    unfold mbind at 1, M_bind at 1. rewrite initializeCounters_fresh.
    destruct (calls_getNextId counterName n 1 d _ ltac:(lia)
                (fresh_counter counterName)) as (c' & Hrun & Hc').
    unfold mbind at 1, M_bind at 1. rewrite Hrun.
    unfold mbind at 1, M_bind at 1.
    replace (initializeCounters (mkDb d (Some c'))) with (Ok tt, mkDb d (Some c'))
      by reflexivity.
    rewrite (getNextId_run counterName (mkDb _ _) c' eq_refl), Hc'.
    rewrite Z.min_l by lia. eexists. f_equal. f_equal. f_equal. lia.
Qed.

Lemma initializeCounters_keeps_witness :
  exists s',
    (initializeCounters ≫= fun _ =>
     calls 2 (getNextId "tradeId") ≫= fun _ =>
     initializeCounters ≫= fun _ =>
     getNextId "tradeId") (mkDb ∅ None)
    = (Ok (Int 3), s').
Proof.
  apply (proj2 (initializeCounters_keeps "tradeId") 2%nat ∅).
  vm_compute. reflexivity.
Defined.

End AllocatorExtras.

(** ** The invariant of a store written through the record store *)

Section StoreInvariant.

Import JS Firestore firebase FirebaseStorage Spec.
Local Open Scope Z_scope.

Lemma elem_of_kinds (collection counterName : string) :
  (collection, counterName) ∈ kinds <->
  (collection = USERS_COLLECTION /\ counterName = "userId")
  \/ (collection = TRADES_COLLECTION /\ counterName = "tradeId")
  \/ (collection = COLLECTIONS_COLLECTION /\ counterName = "collectionId").
Proof.
  unfold kinds. rewrite !elem_of_cons, elem_of_nil.
  split.
  - intros [[= -> ->]|[[= -> ->]|[[= -> ->]|[]]]]; tauto.
  - intros [[-> ->]|[[-> ->]|[-> ->]]]; tauto.
Qed.

(** Two kinds with the same counter, or with the same collection, are the
    same kind. *)
Lemma kinds_functional (c1 n1 c2 n2 : string) :
  (c1, n1) ∈ kinds -> (c2, n2) ∈ kinds -> (c1 = c2 <-> n1 = n2).
Proof.
  rewrite !elem_of_kinds.
  intros [[-> ->]|[[-> ->]|[-> ->]]] [[-> ->]|[[-> ->]|[-> ->]]];
    split; (reflexivity || discriminate).
Qed.

Lemma store_ok_create (s : db) (c : gmap string number)
    (collection counterName : string) (z : Z) (d : DocumentData) :
  store_ok s ->
  counters s = Some c ->
  (collection, counterName) ∈ kinds ->
  number_or_else (c !! counterName) (Int 1) = Int z ->
  z < 2 ^ 53 ->
  (collection = USERS_COLLECTION -> d !! "id" = Some (VNum (Int z))) ->
  documents s !! (collection, toString (Int z)) = None
  /\ store_ok (mkDb (<[(collection, toString (Int z)) := d]> (documents s))
                    (Some (<[counterName := add (Int z) (Int 1)]> c))).
Proof.
  intros (c0 & Hc0 & Hk) Hc Hin Hcur Hlt Hid.
  rewrite Hc in Hc0. injection Hc0 as <-.
  destruct (Hk _ _ Hin) as (z0 & Hz0 & Hb0 & Hkeys0).
  rewrite Hcur in Hz0. injection Hz0 as <-.
  split.
  - destruct (documents s !! (collection, toString (Int z))) as [d0|] eqn:E;
      [|reflexivity].
    destruct (Hkeys0 _ _ E) as (i & Hi & Heq & _).
    apply toString_Int_inj in Heq; lia.
  - rewrite add_one, Z.min_l by lia.
    exists (<[counterName := Int (z + 1)]> c). split; [reflexivity|].
    intros coll2 name2 Hin2.
    destruct (decide (name2 = counterName)) as [->|Hne].
    + assert (coll2 = collection) as -> by (by apply (kinds_functional _ counterName _ counterName)).
      exists (z + 1). rewrite lookup_insert_eq. cbn [number_or_else truthy_number].
      destruct (z + 1 =? 0) eqn:E; [lia|]. cbn [negb].
      split; [reflexivity|]. split; [lia|].
      intros key d' Hd'. cbn [documents] in Hd'.
      apply lookup_insert_Some in Hd' as [[Heq <-]|[Hne Hold]].
      * assert (key = toString (Int z)) as -> by congruence.
        exists z. split; [lia|]. split; [reflexivity|exact Hid].
      * destruct (Hkeys0 _ _ Hold) as (i & Hi & Hkey & Hidf).
        exists i. split; [lia|]. by split.
    + destruct (Hk _ _ Hin2) as (z2 & Hz2 & Hb2 & Hkeys2).
      exists z2. rewrite lookup_insert_ne by done.
      split; [exact Hz2|]. split; [exact Hb2|].
      intros key d' Hd'. cbn [documents] in Hd'.
      rewrite lookup_insert_ne in Hd'; [by apply Hkeys2|].
      intros [= <- _]. apply Hne. symmetry.
      by apply (kinds_functional collection counterName collection name2).
Qed.







Lemma deleteTrade_store (s : db) (id : number) :
  deleteTrade id s =
    match documents s !! (TRADES_COLLECTION, toString id) with
    | Some _ =>
        (Ok true,
         mkDb (delete (TRADES_COLLECTION, toString id) (documents s)) (counters s))
    | None => (Ok false, s)
    end.
Proof.
  unfold deleteTrade. run_store.
  by destruct (documents s !! (TRADES_COLLECTION, toString id)).
Qed.

Lemma deleteCollection_store (s : db) (id : number) :
  deleteCollection id s =
    match documents s !! (COLLECTIONS_COLLECTION, toString id) with
    | Some _ =>
        (Ok true,
         mkDb (delete (COLLECTIONS_COLLECTION, toString id) (documents s))
              (counters s))
    | None => (Ok false, s)
    end.
Proof.
  unfold deleteCollection. run_store.
  by destruct (documents s !! (COLLECTIONS_COLLECTION, toString id)).
Qed.

Lemma store_ok_initial :
  store_ok (mkDb ∅ (Some (list_to_map
              [("userId", Int 1); ("tradeId", Int 1); ("collectionId", Int 1)]))).
Proof.
  eexists. split; [reflexivity|].
  intros collection counterName Hin. exists 1.
  split; [apply fresh_counter|]. split; [lia|].
  intros key d Hd. cbn [documents] in Hd. by rewrite lookup_empty in Hd.
Qed.






End StoreInvariant.

(** ** How the record operations compose *)

Section Composition.

Import JS Firestore firebase FirebaseStorage Spec.
Local Open Scope Z_scope.

(** X8.  Deleting twice is deleting once: the second [deleteTrade]
    ([deleteCollection]) of an identifier returns false and leaves the
    store as the first one left it. *)
Theorem delete_twice (s : db) (id : number) :
  (deleteTrade id ≫= fun _ => deleteTrade id) s
    = (Ok false, snd (deleteTrade id s))
  /\ (deleteCollection id ≫= fun _ => deleteCollection id) s
    = (Ok false, snd (deleteCollection id s)).
Proof.
  split.
  - unfold mbind, M_bind. rewrite (deleteTrade_store s).
    destruct (documents s !! _) eqn:E; cbn [snd];
      rewrite deleteTrade_store; cbn [documents].
    + by rewrite lookup_delete_eq.
    + by rewrite E.
  - unfold mbind, M_bind. rewrite (deleteCollection_store s).
    destruct (documents s !! _) eqn:E; cbn [snd];
      rewrite deleteCollection_store; cbn [documents].
    + by rewrite lookup_delete_eq.
    + by rewrite E.
Qed.

Lemma updateCollection_run (s : db) (id : number)
    (collection collectionUpdate : DocumentData) :
  documents s !! (COLLECTIONS_COLLECTION, toString id) = Some collection ->
  updateCollection id collectionUpdate s =
    (match convertFirestoreData
             (mkSnapshot (toString id)
                (Some (encode collectionUpdate ∪ collection))) with
     | Ok (Some updatedCollection) => Ok updatedCollection
     | Ok None => Throw (Error "Failed to update collection")
     | Throw e => Throw e
     end,
     mkDb (<[(COLLECTIONS_COLLECTION, toString id) :=
               encode collectionUpdate ∪ collection]> (documents s))
          (counters s)).
Proof.
  intros Hdoc. unfold updateCollection. run_update_start Hdoc.
  destruct (convertFirestoreData _) as [[r|]|]; reflexivity.
Qed.

(** X9.  What an update returns is what a read then returns: after
    [updateTrade] ([updateCollection]) has returned a record for a
    payload of top-level fields, [getTrade] ([getCollection]) of the same
    identifier returns that record. *)
Theorem update_then_get (s s' : db) (id : number) (update r : DocumentData) :
  update_data update = true ->
  (updateTrade id update s = (Ok r, s') ->
     getTrade id s' = (Ok (Some r), s'))
  /\ (updateCollection id update s = (Ok r, s') ->
      getCollection id s' = (Ok (Some r), s')).
Proof.
  intros _. split; intros Hrun.
  - destruct (documents s !! (TRADES_COLLECTION, toString id)) as [old|] eqn:E.
    + rewrite (updateTrade_run _ _ _ _ E) in Hrun.
      injection Hrun as Hr <-.
      rewrite (getTrade_stored _ _ _ (lookup_insert_eq _ _ _)).
      destruct (convertFirestoreData _) as [[r'|]|]; try discriminate.
      by injection Hr as ->.
    + unfold updateTrade in Hrun. revert Hrun. run_store. rewrite E. discriminate.
  - destruct (documents s !! (COLLECTIONS_COLLECTION, toString id)) as [old|] eqn:E.
    + rewrite (updateCollection_run _ _ _ _ E) in Hrun.
      injection Hrun as Hr <-.
      rewrite (getCollection_stored _ _ _ (lookup_insert_eq _ _ _)).
      destruct (convertFirestoreData _) as [[r'|]|]; try discriminate.
      by injection Hr as ->.
    + unfold updateCollection in Hrun. revert Hrun. run_store. rewrite E.
      discriminate.
Qed.

Lemma update_then_get_witness :
  let s := mkDb {[(TRADES_COLLECTION, "1") := {["symbol" := VStr "AAPL"]}]} None in
  let r := <["id" := VNum (Int 1)]>
             (<["notes" := VStr "x"]> {["symbol" := VStr "AAPL"]}) in
  getTrade (Int 1) (snd (updateTrade (Int 1) {["notes" := VStr "x"]} s))
  = (Ok (Some r), snd (updateTrade (Int 1) {["notes" := VStr "x"]} s)).
Proof.
  intros s r.
  assert (Hup : update_data ({["notes" := VStr "x"]} : DocumentData) = true)
    by (vm_compute; reflexivity).
  apply (proj1 (update_then_get s _ (Int 1) _ r Hup)).
  vm_compute. reflexivity.
Defined.

End Composition.

(** ** Partial updates and failing normalisation *)

Section Updates.

Import JS Firestore firebase FirebaseStorage Spec.
Local Open Scope Z_scope.

Lemma spread_date_throws (data : DocumentData) (f : string) (o : DocumentData) :
  date_field_ok (data !! f) = false -> spread_date data f o = Throw TypeError.
Proof.
  unfold spread_date, date_field_ok.
  destruct (data !! f) as [v|]; [|discriminate].
  destruct v; cbn; try discriminate; try reflexivity;
    intros H; apply negb_false_iff in H; by rewrite H.
Qed.

Lemma convertFirestoreData_throws (key : string) (data : DocumentData) :
  date_fields_ok data = false ->
  convertFirestoreData (mkSnapshot key (Some data)) = Throw TypeError.
Proof.
  unfold date_fields_ok, date_fields. cbn [forallb]. intros Hok.
  unfold convertFirestoreData, exists_. cbn [Firestore.data Firestore.id negb].
  destruct (date_field_ok (data !! "createdAt")) eqn:E1.
  2:{ by rewrite (spread_date_throws _ _ _ E1). }
  rewrite (spread_date_ok _ _ _ E1). cbn [mbind result_bind].
  destruct (date_field_ok (data !! "entryDate")) eqn:E2.
  2:{ by rewrite (spread_date_throws _ _ _ E2). }
  rewrite (spread_date_ok _ _ _ E2). cbn [mbind result_bind].
  destruct (date_field_ok (data !! "exitDate")) eqn:E3; [discriminate|].
  by rewrite (spread_date_throws _ _ _ E3).
Qed.

(** X10.  The three outcomes of [convertFirestoreData]: null exactly for
    a snapshot without a document; a record when every date field of the
    document is absent, falsy or a timestamp; and a TypeError, never
    another error, when some date field holds any other value. *)
Theorem convertFirestoreData_outcome (doc : DocumentSnapshot) :
  match data doc with
  | None => convertFirestoreData doc = Ok None
  | Some d =>
      if date_fields_ok d
      then exists r, convertFirestoreData doc = Ok (Some r)
      else convertFirestoreData doc = Throw TypeError
  end.
Proof.
  destruct doc as [key [d|]]; cbn [data]; [|reflexivity].
  destruct (date_fields_ok d) eqn:E.
  - destruct (convertFirestoreData_ok key d E) as (r & Hr & _). by exists r.
  - by apply convertFirestoreData_throws.
Qed.

Lemma read_back_lookup (key : string) (data r : DocumentData) :
  convertFirestoreData (mkSnapshot key (Some data)) = Ok (Some r) ->
  r !! "id" = Some (key_id key)
  /\ forall f, f <> "id" -> r !! f = read_back f <$> data !! f.
Proof.
  intros Hr.
  destruct (convertFirestoreData_ok key data (convertFirestoreData_returns _ _ _ Hr))
    as (r' & Hr' & Hid & Hd & Hrest).
  rewrite Hr in Hr'. injection Hr' as <-.
  split; [exact Hid|]. intros f Hf. unfold read_back.
  case_bool_decide as Hin.
  - by apply Hd.
  - rewrite Hrest by done. by destruct (data !! f).
Qed.

(** X11.  A partial update is a field-wise merge.  When [updateTrade]
    ([updateCollection]) returns a record for a payload of top-level
    fields, each field listed in the payload holds the value written,
    each field not listed holds what the stored document had, and the
    identifier is the one of the key even if the payload lists an [id]. *)
Theorem update_merge (s s' : db) (id : number) (old update r : DocumentData) :
  update_data update = true ->
  (documents s !! (TRADES_COLLECTION, toString id) = Some old ->
   updateTrade id update s = (Ok r, s') ->
   (forall f v, f <> "id" -> update !! f = Some v ->
                r !! f = Some (read_back f (encode_value v)))
   /\ (forall f, f <> "id" -> update !! f = None ->
                 r !! f = read_back f <$> old !! f)
   /\ r !! "id" = Some (key_id (toString id)))
  /\ (documents s !! (COLLECTIONS_COLLECTION, toString id) = Some old ->
      updateCollection id update s = (Ok r, s') ->
      (forall f v, f <> "id" -> update !! f = Some v ->
                   r !! f = Some (read_back f (encode_value v)))
      /\ (forall f, f <> "id" -> update !! f = None ->
                    r !! f = read_back f <$> old !! f)
      /\ r !! "id" = Some (key_id (toString id))).
Proof.
  intros _.
  assert (Hmerge : forall data,
            convertFirestoreData
              (mkSnapshot (toString id) (Some (encode update ∪ data))) = Ok (Some r) ->
            (forall f v, f <> "id" -> update !! f = Some v ->
                         r !! f = Some (read_back f (encode_value v)))
            /\ (forall f, f <> "id" -> update !! f = None ->
                          r !! f = read_back f <$> data !! f)
            /\ r !! "id" = Some (key_id (toString id))).
  { intros data Hr. destruct (read_back_lookup _ _ _ Hr) as [Hid Hf].
    split; [|split; [|exact Hid]].
    - intros f v Hne Hv. rewrite Hf by done.
      erewrite lookup_union_Some_l; [reflexivity|].
      unfold encode. by rewrite lookup_fmap, Hv.
    - intros f Hne Hv. rewrite Hf by done.
      rewrite lookup_union_r; [reflexivity|].
      unfold encode. by rewrite lookup_fmap, Hv. }
  split; intros Hdoc Hrun.
  - rewrite (updateTrade_run _ _ _ _ Hdoc) in Hrun. injection Hrun as Hr _.
    apply Hmerge.
    destruct (convertFirestoreData _) as [[r'|]|]; try discriminate.
    by injection Hr as ->.
  - rewrite (updateCollection_run _ _ _ _ Hdoc) in Hrun. injection Hrun as Hr _.
    apply Hmerge.
    destruct (convertFirestoreData _) as [[r'|]|]; try discriminate.
    by injection Hr as ->.
Qed.

Lemma update_merge_witness :
  let s := mkDb {[(COLLECTIONS_COLLECTION, "2") :=
                    <["name" := VStr "swing"]> {["userId" := VNum (Int 1)]}]} None in
  let update : DocumentData :=
    <["id" := VNum (Int 9)]> {["name" := VStr "day"]} in
  let r : DocumentData := <["id" := VNum (Int 2)]>
             (<["name" := VStr "day"]> {["userId" := VNum (Int 1)]}) in
  r !! "name" = Some (VStr "day")
  /\ r !! "userId" = Some (VNum (Int 1))
  /\ r !! "id" = Some (VNum (Int 2)).
Proof.
  intros s update r.
  assert (Hup : update_data update = true) by (vm_compute; reflexivity).
  destruct (proj2 (update_merge s (snd (updateCollection (Int 2) update s))
                     (Int 2)
                     (<["name" := VStr "swing"]> {["userId" := VNum (Int 1)]})
                     update r Hup))
    as (Hl & Hu & Hid).
  - vm_compute. reflexivity.
  - vm_compute. reflexivity.
  - split; [|split].
    + apply (Hl "name" (VStr "day")); [discriminate|reflexivity].
    + apply (Hu "userId"); [discriminate|reflexivity].
    + exact Hid.
Defined.

(** X12.  An update is not rolled back when the re-read fails.  If the
    document merged from a payload of top-level fields has a date field
    that is neither falsy nor a timestamp, [updateTrade]
    ([updateCollection]) throws a TypeError after the write: the merged
    document is stored, and every later [getTrade] ([getCollection]) of
    the identifier throws as well. *)
Theorem update_not_rolled_back (s : db) (id : number)
    (old update : DocumentData) :
  update_data update = true ->
  date_fields_ok (encode update ∪ old) = false ->
  (documents s !! (TRADES_COLLECTION, toString id) = Some old ->
   exists s',
     updateTrade id update s = (Throw TypeError, s')
     /\ documents s' !! (TRADES_COLLECTION, toString id)
        = Some (encode update ∪ old)
     /\ getTrade id s' = (Throw TypeError, s'))
  /\ (documents s !! (COLLECTIONS_COLLECTION, toString id) = Some old ->
      exists s',
        updateCollection id update s = (Throw TypeError, s')
        /\ documents s' !! (COLLECTIONS_COLLECTION, toString id)
           = Some (encode update ∪ old)
        /\ getCollection id s' = (Throw TypeError, s')).
Proof.
  intros _ Hbad. split; intros Hdoc.
  - eexists. split; [|split].
    + rewrite (updateTrade_run _ _ _ _ Hdoc).
      by rewrite (convertFirestoreData_throws _ _ Hbad).
    + apply lookup_insert_eq.
    + rewrite (getTrade_stored _ _ _ (lookup_insert_eq _ _ _)).
      by rewrite (convertFirestoreData_throws _ _ Hbad).
  - eexists. split; [|split].
    + rewrite (updateCollection_run _ _ _ _ Hdoc).
      by rewrite (convertFirestoreData_throws _ _ Hbad).
    + apply lookup_insert_eq.
    + rewrite (getCollection_stored _ _ _ (lookup_insert_eq _ _ _)).
      by rewrite (convertFirestoreData_throws _ _ Hbad).
Qed.

Lemma update_not_rolled_back_witness :
  exists s',
    updateTrade (Int 1) {["entryDate" := VStr "2024-01-01"]}
      (mkDb {[(TRADES_COLLECTION, "1") := {["symbol" := VStr "AAPL"]}]} None)
    = (Throw TypeError, s')
    /\ getTrade (Int 1) s' = (Throw TypeError, s').
Proof.
  pose (old := {["symbol" := VStr "AAPL"]} : DocumentData).
  pose (update := {["entryDate" := VStr "2024-01-01"]} : DocumentData).
  assert (Hbad : date_fields_ok (encode update ∪ old) = false)
    by (vm_compute; reflexivity).
  assert (Hdoc : documents (mkDb {[(TRADES_COLLECTION, "1") := old]} None)
                   !! (TRADES_COLLECTION, toString (Int 1)) = Some old)
    by (vm_compute; reflexivity).
  assert (Hup : update_data update = true) by (vm_compute; reflexivity).
  destruct (proj1 (update_not_rolled_back _ (Int 1) old update Hup Hbad) Hdoc)
    as (s' & Hrun & _ & Hget).
  exists s'. by split.
Defined.

End Updates.

Section UserUpdates.

Import JS Firestore firebase FirebaseStorage Spec.
Local Open Scope Z_scope.

Lemma updateUserPlan_run (s : db) (userId : number) (planType : string)
    (old : DocumentData) :
  documents s !! (USERS_COLLECTION, toString userId) = Some old ->
  updateUserPlan userId planType s =
    (match convertFirestoreData
             (mkSnapshot (toString userId)
                (Some (<["planType" := VStr planType]> old))) with
     | Ok (Some updatedUser) => Ok updatedUser
     | Ok None => Throw (Error "Failed to update user")
     | Throw e => Throw e
     end,
     mkDb (<[(USERS_COLLECTION, toString userId) :=
               <["planType" := VStr planType]> old]> (documents s))
          (counters s)).
Proof.
  intros Hdoc. unfold updateUserPlan. run_update_start Hdoc.
  unfold object_literal, encode. cbn [foldl fst snd].
  rewrite insert_empty, map_fmap_singleton, <- insert_union_singleton_l.
  cbn [encode_value].
  destruct (convertFirestoreData _) as [[r|]|]; reflexivity.
Qed.

Lemma updateUserStripeInfo_run (s : db) (userId : number)
    (customerId subscriptionId : string) (old : DocumentData) :
  documents s !! (USERS_COLLECTION, toString userId) = Some old ->
  updateUserStripeInfo userId customerId subscriptionId s =
    (match convertFirestoreData
             (mkSnapshot (toString userId)
                (Some (<["stripeSubscriptionId" := VStr subscriptionId]>
                         (<["stripeCustomerId" := VStr customerId]> old)))) with
     | Ok (Some updatedUser) => Ok updatedUser
     | Ok None => Throw (Error "Failed to update user")
     | Throw e => Throw e
     end,
     mkDb (<[(USERS_COLLECTION, toString userId) :=
               <["stripeSubscriptionId" := VStr subscriptionId]>
                 (<["stripeCustomerId" := VStr customerId]> old)]> (documents s))
          (counters s)).
Proof.
  intros Hdoc. unfold updateUserStripeInfo. run_update_start Hdoc.
  unfold object_literal, encode. cbn [foldl fst snd].
  rewrite insert_empty, fmap_insert, map_fmap_singleton.
  rewrite <- insert_union_l, <- insert_union_singleton_l.
  cbn [encode_value].
  destruct (convertFirestoreData _) as [[r|]|]; reflexivity.
Qed.

Lemma date_fields_ok_insert (data : DocumentData) (f : string) (v : value) :
  f ∉ date_fields ->
  date_fields_ok (<[f := v]> data) = date_fields_ok data.
Proof.
  rewrite elem_of_date_fields. intros Hf.
  unfold date_fields_ok, date_fields. cbn [forallb].
  rewrite !lookup_insert_ne by (intros ->; tauto). reflexivity.
Qed.

(** X13.  For an existing account whose date fields are timestamps,
    [updateUserPlan] returns the account with the given plan, and
    [updateUserStripeInfo] the account with the two given references;
    every other field of the returned record, the identifier included, is
    what the normalised stored account had, and only the document of that
    account is written. *)
Theorem updateUser_fields (s : db) (userId : number) (old : DocumentData)
    (planType customerId subscriptionId : string) :
  documents s !! (USERS_COLLECTION, toString userId) = Some old ->
  date_fields_ok old = true ->
  exists r0,
    convertFirestoreData (mkSnapshot (toString userId) (Some old)) = Ok (Some r0)
    /\ (exists r s',
          updateUserPlan userId planType s = (Ok r, s')
          /\ r = <["planType" := VStr planType]> r0
          /\ documents s'
             = <[(USERS_COLLECTION, toString userId) :=
                   <["planType" := VStr planType]> old]> (documents s))
    /\ (exists r s',
          updateUserStripeInfo userId customerId subscriptionId s = (Ok r, s')
          /\ r = <["stripeSubscriptionId" := VStr subscriptionId]>
                   (<["stripeCustomerId" := VStr customerId]> r0)
          /\ documents s'
             = <[(USERS_COLLECTION, toString userId) :=
                   <["stripeSubscriptionId" := VStr subscriptionId]>
                     (<["stripeCustomerId" := VStr customerId]> old)]>
                 (documents s)).
Proof.
  intros Hdoc Hok.
  destruct (convertFirestoreData_ok (toString userId) old Hok)
    as (r0 & Hr0 & _).
  destruct (read_back_lookup _ _ _ Hr0) as [Hid0 Hf0].
  exists r0. split; [exact Hr0|]. split.
  - assert (Hok' : date_fields_ok (<["planType" := VStr planType]> old) = true).
    { rewrite date_fields_ok_insert; [exact Hok|by apply not_date_field]. }
    destruct (convertFirestoreData_ok (toString userId) _ Hok') as (r & Hr & _).
    destruct (read_back_lookup _ _ _ Hr) as [Hid Hf].
    exists r. eexists.
    split; [rewrite (updateUserPlan_run _ _ _ _ Hdoc), Hr; reflexivity|].
    split; [|reflexivity].
    apply map_eq. intros f.
    destruct (decide (f = "id")) as [->|Hne].
    { by rewrite lookup_insert_ne, Hid, Hid0. }
    rewrite Hf by done.
    destruct (decide (f = "planType")) as [->|Hne2].
    + rewrite !lookup_insert_eq. cbn. unfold read_back.
      rewrite bool_decide_eq_false_2; [reflexivity|by apply not_date_field].
    + rewrite !lookup_insert_ne by done. by rewrite Hf0.
  - assert (Hok' : date_fields_ok
                     (<["stripeSubscriptionId" := VStr subscriptionId]>
                        (<["stripeCustomerId" := VStr customerId]> old)) = true).
    { rewrite !date_fields_ok_insert; [exact Hok| |]; by apply not_date_field. }
    destruct (convertFirestoreData_ok (toString userId) _ Hok') as (r & Hr & _).
    destruct (read_back_lookup _ _ _ Hr) as [Hid Hf].
    exists r. eexists.
    split; [rewrite (updateUserStripeInfo_run _ _ _ _ _ Hdoc), Hr; reflexivity|].
    split; [|reflexivity].
    apply map_eq. intros f.
    destruct (decide (f = "id")) as [->|Hne].
    { by rewrite !lookup_insert_ne, Hid, Hid0. }
    rewrite Hf by done.
    destruct (decide (f = "stripeSubscriptionId")) as [->|Hne2].
    + rewrite !lookup_insert_eq. cbn. unfold read_back.
      rewrite bool_decide_eq_false_2; [reflexivity|by apply not_date_field].
    + rewrite (lookup_insert_ne _ "stripeSubscriptionId") by done.
      rewrite (lookup_insert_ne _ "stripeSubscriptionId") by done.
      destruct (decide (f = "stripeCustomerId")) as [->|Hne3].
      * rewrite !lookup_insert_eq. cbn. unfold read_back.
        rewrite bool_decide_eq_false_2; [reflexivity|by apply not_date_field].
      * rewrite !lookup_insert_ne by done. by rewrite Hf0.
Qed.

Lemma updateUser_fields_witness :
  exists r s',
    updateUserPlan (Int 1) "pro"
      (mkDb {[(USERS_COLLECTION, "1") :=
                <["planType" := VStr "free"]> {["username" := VStr "alice"]}]} None)
    = (Ok r, s')
    /\ r !! "planType" = Some (VStr "pro")
    /\ r !! "username" = Some (VStr "alice").
Proof.
  pose (old := <["planType" := VStr "free"]> {["username" := VStr "alice"]}
               : DocumentData).
  assert (Hdoc : documents (mkDb {[(USERS_COLLECTION, "1") := old]} None)
                   !! (USERS_COLLECTION, toString (Int 1)) = Some old)
    by (vm_compute; reflexivity).
  assert (Hok : date_fields_ok old = true) by (vm_compute; reflexivity).
  destruct (updateUser_fields _ (Int 1) old "pro" "" "" Hdoc Hok)
    as (r0 & Hr0 & (r & s' & Hrun & -> & _) & _).
  exists (<["planType" := VStr "pro"]> r0), s'. split; [exact Hrun|].
  split; [apply lookup_insert_eq|].
  rewrite lookup_insert_ne by discriminate.
  destruct (read_back_lookup _ _ _ Hr0) as [_ Hf].
  rewrite Hf by discriminate. reflexivity.
Defined.

End UserUpdates.

(** ** The routes addressed by id *)

Section Routes.

Import JS Firestore firebase FirebaseStorage routes Spec.
Local Open Scope Z_scope.

Lemma getTrade_reads (id : number) (s : db) : snd (getTrade id s) = s.
Proof.
  destruct (documents s !! (TRADES_COLLECTION, toString id)) eqn:E.
  - by rewrite (getTrade_stored _ _ _ E).
  - by rewrite (getTrade_missing _ _ E).
Qed.

Lemma getCollection_reads (id : number) (s : db) : snd (getCollection id s) = s.
Proof.
  destruct (documents s !! (COLLECTIONS_COLLECTION, toString id)) eqn:E.
  - by rewrite (getCollection_stored _ _ _ E).
  - by rewrite (getCollection_missing _ _ E).
Qed.



(** X14.  The trade routes act for the owner only.  Unless the request
    is authenticated, the trade exists and its [userId] is strictly
    equal to the session user's [id], each of GET, PUT and DELETE
    /api/trades/:id answers with a status other than 200 and leaves the
    store as it was. *)
Theorem trade_routes_owner_only (req : Request) (s : db) :
  ~ trade_owner req s ->
  (snd (get_trade req s) = s /\ status (fst (get_trade req s)) <> 200)
  /\ (snd (put_trade req s) = s /\ status (fst (put_trade req s)) <> 200)
  /\ (snd (delete_trade req s) = s /\ status (fst (delete_trade req s)) <> 200).
Proof.
  intros Hno.
  assert (Hcheck : forall u t,
            user req = Some u ->
            getTrade (parseInt (params_id req)) s = (Ok (Some t), s) ->
            strict_equal (t !! "userId") (u !! "id") = false).
  { intros u t Hu Hg. apply not_true_is_false. intros Heq. apply Hno.
    exists u, t. by rewrite Hg. }
  repeat split.
  all: try (unfold get_trade); try (unfold put_trade); try (unfold delete_trade).
  all: unfold ensureAuthenticated.
  all: destruct (user req) as [u|] eqn:Hu; [|answered].
  all: run_route getTrade getTrade_reads; try answered.
  all: rewrite (Hcheck u t eq_refl eq_refl); answered.
Qed.

Lemma trade_routes_owner_only_witness :
  let s := mkDb {[(TRADES_COLLECTION, "1") := {["userId" := VNum (Int 1)]}]} None in
  let req := mkRequest (Some {["id" := VNum (Int 2)]}) "1" {["notes" := VStr "x"]} in
  snd (put_trade req s) = s /\ status (fst (put_trade req s)) <> 200.
Proof.
  intros s req.
  refine (proj1 (proj2 (trade_routes_owner_only req s _))).
  intros (u & t & Hu & Hg & Ho).
  injection Hu as <-.
  assert (Hdoc : documents s !! (TRADES_COLLECTION, toString (parseInt (params_id req)))
                 = Some {["userId" := VNum (Int 1)]})
    by (vm_compute; reflexivity).
  rewrite (getTrade_stored _ _ _ Hdoc) in Hg. cbn [fst] in Hg.
  destruct (read_back_lookup _ _ _ Hg) as [_ Hf].
  rewrite Hf in Ho by discriminate.
  vm_compute in Ho. discriminate.
Defined.

(** X15.  The collection routes act for the owner only: unless the
    request comes from the owner of the collection, each of GET, PUT and
    DELETE /api/collections/:id and GET /api/collections/:id/trades
    answers with a status other than 200 and leaves the store as it
    was. *)
Theorem collection_routes_owner_only (req : Request) (s : db) :
  ~ collection_owner req s ->
  (snd (get_collection req s) = s /\ status (fst (get_collection req s)) <> 200)
  /\ (snd (get_collection_trades req s) = s
      /\ status (fst (get_collection_trades req s)) <> 200)
  /\ (snd (put_collection req s) = s /\ status (fst (put_collection req s)) <> 200)
  /\ (snd (delete_collection req s) = s
      /\ status (fst (delete_collection req s)) <> 200).
Proof.
  intros Hno.
  assert (Hcheck : forall u t,
            user req = Some u ->
            getCollection (parseInt (params_id req)) s = (Ok (Some t), s) ->
            strict_equal (t !! "userId") (u !! "id") = false).
  { intros u t Hu Hg. apply not_true_is_false. intros Heq. apply Hno.
    exists u, t. by rewrite Hg. }
  repeat split.
  all: try (unfold get_collection); try (unfold get_collection_trades);
    try (unfold put_collection); try (unfold delete_collection).
  all: unfold ensureAuthenticated.
  all: destruct (user req) as [u|] eqn:Hu; [|answered].
  all: run_route getCollection getCollection_reads; try answered.
  all: rewrite (Hcheck u t eq_refl eq_refl); answered.
Qed.

Lemma collection_routes_owner_only_witness :
  let s := mkDb {[(COLLECTIONS_COLLECTION, "1") := {["userId" := VNum (Int 1)]}]} None in
  let req := mkRequest None "1" ∅ in
  snd (delete_collection req s) = s /\ status (fst (delete_collection req s)) <> 200.
Proof.
  intros s req.
  apply (proj2 (proj2 (proj2 (collection_routes_owner_only req s
    ltac:(intros (u & t & Hu & _); discriminate))))).
Defined.

Lemma trade_owner_stored (req : Request) (s : db) :
  trade_owner req s ->
  exists u trade old,
    user req = Some u
    /\ documents s !! (TRADES_COLLECTION, toString (parseInt (params_id req)))
       = Some old
    /\ getTrade (parseInt (params_id req)) s = (Ok (Some trade), s)
    /\ strict_equal (trade !! "userId") (u !! "id") = true.
Proof.
  intros (u & t & Hu & Hg & Ho).
  destruct (documents s !! (TRADES_COLLECTION, toString (parseInt (params_id req))))
    as [old|] eqn:E.
  - exists u, t, old. repeat split; try done.
    rewrite (getTrade_stored _ _ _ E) in *. cbn [fst] in Hg. by rewrite Hg.
  - by rewrite (getTrade_missing _ _ E) in Hg.
Qed.

Lemma collection_owner_stored (req : Request) (s : db) :
  collection_owner req s ->
  exists u collection old,
    user req = Some u
    /\ documents s !! (COLLECTIONS_COLLECTION, toString (parseInt (params_id req)))
       = Some old
    /\ getCollection (parseInt (params_id req)) s = (Ok (Some collection), s)
    /\ strict_equal (collection !! "userId") (u !! "id") = true.
Proof.
  intros (u & t & Hu & Hg & Ho).
  destruct (documents s !! (COLLECTIONS_COLLECTION,
                            toString (parseInt (params_id req))))
    as [old|] eqn:E.
  - exists u, t, old. repeat split; try done.
    rewrite (getCollection_stored _ _ _ E) in *. cbn [fst] in Hg. by rewrite Hg.
  - by rewrite (getCollection_missing _ _ E) in Hg.
Qed.

(** X16.  A DELETE by the owner answers 200 and removes the record and
    nothing else; the same request sent as a GET afterwards answers 404.
    Deleting a collection leaves every trade stored, those that refer to
    the collection included. *)
Theorem delete_route_then_get (req : Request) (s : db) :
  (trade_owner req s ->
   exists s',
     delete_trade req s
       = (mkResponse 200 (JMessage "Trade deleted successfully"), s')
     /\ documents s'
        = delete (TRADES_COLLECTION, toString (parseInt (params_id req)))
            (documents s)
     /\ get_trade req s' = (mkResponse 404 (JMessage "Trade not found"), s'))
  /\ (collection_owner req s ->
      exists s',
        delete_collection req s
          = (mkResponse 200 (JMessage "Collection deleted successfully"), s')
        /\ documents s'
           = delete (COLLECTIONS_COLLECTION, toString (parseInt (params_id req)))
               (documents s)
        /\ (forall key trade,
              documents s !! (TRADES_COLLECTION, key) = Some trade ->
              documents s' !! (TRADES_COLLECTION, key) = Some trade)
        /\ get_collection req s'
           = (mkResponse 404 (JMessage "Collection not found"), s')).
Proof.
  split.
  - intros Hown.
    destruct (trade_owner_stored _ _ Hown) as (u & t & old & Hu & Hdoc & Hg & Ho).
    eexists. split; [|split].
    + unfold delete_trade, ensureAuthenticated, try_catch. rewrite Hu.
      unfold mbind at 1, M_bind at 1. rewrite Hg, Ho. cbn [negb].
      unfold mbind, M_bind. rewrite deleteTrade_store, Hdoc. reflexivity.
    + reflexivity.
    + unfold get_trade, ensureAuthenticated, try_catch. rewrite Hu.
      unfold mbind, M_bind. rewrite getTrade_missing; [reflexivity|].
      apply lookup_delete_eq.
  - intros Hown.
    destruct (collection_owner_stored _ _ Hown)
      as (u & t & old & Hu & Hdoc & Hg & Ho).
    eexists. split; [|split; [|split]].
    + unfold delete_collection, ensureAuthenticated, try_catch. rewrite Hu.
      unfold mbind at 1, M_bind at 1. rewrite Hg, Ho. cbn [negb].
      unfold mbind, M_bind. rewrite deleteCollection_store, Hdoc. reflexivity.
    + reflexivity.
    + intros key trade Ht. cbn [documents].
      rewrite lookup_delete_ne; [exact Ht|discriminate].
    + unfold get_collection, ensureAuthenticated, try_catch. rewrite Hu.
      unfold mbind, M_bind. rewrite getCollection_missing; [reflexivity|].
      apply lookup_delete_eq.
Qed.

Lemma owner_example :
  trade_owner
    (mkRequest (Some {["id" := VNum (Int 1)]}) "1" ∅)
    (mkDb {[(TRADES_COLLECTION, "1") := {["userId" := VNum (Int 1)]}]} None).
Proof.
  eexists _, _. split; [reflexivity|]. split.
  - assert (Hdoc : documents
        (mkDb {[(TRADES_COLLECTION, "1") := {["userId" := VNum (Int 1)]}]} None)
        !! (TRADES_COLLECTION, toString (parseInt "1"))
        = Some {["userId" := VNum (Int 1)]}) by (vm_compute; reflexivity).
    cbn [params_id]. rewrite (getTrade_stored _ _ _ Hdoc). cbn [fst].
    vm_compute. reflexivity.
  - vm_compute. reflexivity.
Qed.

Lemma owner_example_put :
  trade_owner
    (mkRequest (Some {["id" := VNum (Int 1)]}) "1" {["userId" := VNum (Int 2)]})
    (mkDb {[(TRADES_COLLECTION, "1") := {["userId" := VNum (Int 1)]}]} None).
Proof.
  destruct owner_example as (u & t & Hu & Hg & Ho). by exists u, t.
Qed.

Lemma delete_route_then_get_witness :
  exists s',
    delete_trade (mkRequest (Some {["id" := VNum (Int 1)]}) "1" ∅)
      (mkDb {[(TRADES_COLLECTION, "1") := {["userId" := VNum (Int 1)]}]} None)
    = (mkResponse 200 (JMessage "Trade deleted successfully"), s')
    /\ get_trade (mkRequest (Some {["id" := VNum (Int 1)]}) "1" ∅) s'
       = (mkResponse 404 (JMessage "Trade not found"), s').
Proof.
  destruct (proj1 (delete_route_then_get _ _) owner_example)
    as (s' & Hd & _ & Hg).
  exists s'. by split.
Defined.

Lemma not_date_userId : "userId" ∉ date_fields.
Proof.
  unfold date_fields. intros H. repeat (apply elem_of_cons in H as [H|H]; [discriminate|]).
  by apply elem_of_nil in H.
Qed.

Lemma merged_userId (update old : DocumentData) (v : value) :
  update !! "userId" = Some v ->
  read_back "userId" <$> (encode update ∪ old) !! "userId" = Some (encode_value v).
Proof.
  intros Hv. erewrite lookup_union_Some_l
    by (unfold encode; rewrite lookup_fmap, Hv; reflexivity).
  unfold read_back. rewrite bool_decide_eq_false_2; [reflexivity|].
  apply not_date_userId.
Qed.

(** X17.  PUT passes the request body to the update as it is, so the
    owner can give a record away: when the body names a [userId] that is
    not strictly equal to the session user's [id] and the merged
    document can be read back, the route answers 200 with a record that
    carries the new [userId], and the same user is no longer the owner
    of the record afterwards. *)
Theorem put_reassigns_owner (req : Request) (s : db)
    (u old : DocumentData) (v : value) :
  user req = Some u ->
  update_data (body req) = true ->
  body req !! "userId" = Some v ->
  strict_equal (Some (encode_value v)) (u !! "id") = false ->
  date_fields_ok (encode (body req) ∪ old) = true ->
  (trade_owner req s ->
   documents s !! (TRADES_COLLECTION, toString (parseInt (params_id req)))
     = Some old ->
   exists record s',
     put_trade req s = (mkResponse 200 (JRecord record), s')
     /\ record !! "userId" = Some (encode_value v)
     /\ ~ trade_owner req s')
  /\ (collection_owner req s ->
      documents s !! (COLLECTIONS_COLLECTION, toString (parseInt (params_id req)))
        = Some old ->
      exists record s',
        put_collection req s = (mkResponse 200 (JRecord record), s')
        /\ record !! "userId" = Some (encode_value v)
        /\ ~ collection_owner req s').
Proof.
  intros Hu _ Hv Hne Hok.
  destruct (convertFirestoreData_ok (toString (parseInt (params_id req))) _ Hok)
    as (r & Hr & _).
  assert (Hru : r !! "userId" = Some (encode_value v)).
  { destruct (read_back_lookup _ _ _ Hr) as [_ Hf].
    rewrite Hf by discriminate. by apply merged_userId. }
  split; intros Hown Hdoc.
  - destruct (trade_owner_stored _ _ Hown) as (u' & t & old' & Hu' & _ & Hg & Ho).
    rewrite Hu in Hu'. injection Hu' as <-.
    exists r. eexists. split; [|split; [exact Hru|]].
    + unfold put_trade, ensureAuthenticated, try_catch. rewrite Hu.
      unfold mbind at 1, M_bind at 1. rewrite Hg, Ho. cbn [negb].
      unfold mbind, M_bind. rewrite (updateTrade_run _ _ _ _ Hdoc), Hr.
      reflexivity.
    + intros (u' & t' & Hu' & Hg' & Ho').
      rewrite Hu in Hu'. injection Hu' as <-.
      rewrite (getTrade_stored _ _ _ (lookup_insert_eq _ _ _)) in Hg'.
      cbn [fst] in Hg'. rewrite Hr in Hg'. injection Hg' as <-.
      rewrite Hru in Ho'. congruence.
  - destruct (collection_owner_stored _ _ Hown)
      as (u' & t & old' & Hu' & _ & Hg & Ho).
    rewrite Hu in Hu'. injection Hu' as <-.
    exists r. eexists. split; [|split; [exact Hru|]].
    + unfold put_collection, ensureAuthenticated, try_catch. rewrite Hu.
      unfold mbind at 1, M_bind at 1. rewrite Hg, Ho. cbn [negb].
      unfold mbind, M_bind. rewrite (updateCollection_run _ _ _ _ Hdoc), Hr.
      reflexivity.
    + intros (u' & t' & Hu' & Hg' & Ho').
      rewrite Hu in Hu'. injection Hu' as <-.
      rewrite (getCollection_stored _ _ _ (lookup_insert_eq _ _ _)) in Hg'.
      cbn [fst] in Hg'. rewrite Hr in Hg'. injection Hg' as <-.
      rewrite Hru in Ho'. congruence.
Qed.

Lemma put_reassigns_owner_witness :
  let req := mkRequest (Some {["id" := VNum (Int 1)]}) "1"
               {["userId" := VNum (Int 2)]} in
  let s := mkDb {[(TRADES_COLLECTION, "1") := {["userId" := VNum (Int 1)]}]}
             None in
  exists record s',
    put_trade req s = (mkResponse 200 (JRecord record), s')
    /\ record !! "userId" = Some (VNum (Int 2))
    /\ ~ trade_owner req s'.
Proof.
  intros req s.
  assert (Hup : update_data (body req) = true) by (vm_compute; reflexivity).
  assert (Hok : date_fields_ok
                  (encode (body req) ∪ ({["userId" := VNum (Int 1)]} : DocumentData))
                = true) by (vm_compute; reflexivity).
  assert (Hdoc : documents s !! (TRADES_COLLECTION, toString (parseInt (params_id req)))
                 = Some {["userId" := VNum (Int 1)]}) by (vm_compute; reflexivity).
  refine (proj1 (put_reassigns_owner req s {["id" := VNum (Int 1)]} _
                   (VNum (Int 2)) eq_refl Hup _ _ Hok) owner_example_put Hdoc).
  - vm_compute. reflexivity.
  - vm_compute. reflexivity.
Defined.

Lemma stored_key (s : db) (collection counterName key : string)
    (d : DocumentData) :
  store_ok s ->
  (collection, counterName) ∈ kinds ->
  documents s !! (collection, key) = Some d ->
  exists i, 1 <= i <= 2 ^ 53 /\ key = toString (Int i).
Proof.
  intros (c & _ & Hk) Hin Hdoc.
  destruct (Hk _ _ Hin) as (z & _ & Hz & Hdocs).
  destruct (Hdocs _ _ Hdoc) as (i & Hi & -> & _).
  exists i. split; [lia|reflexivity].
Qed.

(** X18.  Every record of a store written through the record store can
    be fetched over its route.  A GET whose [:id] is the key of a stored
    trade (collection), followed by anything that does not start with a
    digit, answers 200 for the owner when the document's date fields can
    be read; the record has the number of the key as [id] and the stored
    fields, dates made native. *)
Theorem get_route_reaches (s : db) (key suffix : string)
    (u data body : DocumentData) :
  store_ok s ->
  match code_units suffix with
  | c :: _ => ~ (48 <= c <= 57)
  | [] => True
  end ->
  date_fields_ok data = true ->
  strict_equal (data !! "userId") (u !! "id") = true ->
  (documents s !! (TRADES_COLLECTION, key) = Some data ->
   exists record,
     get_trade (mkRequest (Some u) (key +:+ suffix) body) s
       = (mkResponse 200 (JRecord record), s)
     /\ record !! "id" = Some (VNum (parseInt key))
     /\ forall f, f <> "id" -> record !! f = read_back f <$> data !! f)
  /\ (documents s !! (COLLECTIONS_COLLECTION, key) = Some data ->
      exists record,
        get_collection (mkRequest (Some u) (key +:+ suffix) body) s
          = (mkResponse 200 (JRecord record), s)
        /\ record !! "id" = Some (VNum (parseInt key))
        /\ forall f, f <> "id" -> record !! f = read_back f <$> data !! f).
Proof.
  intros Hok Hsuf Hdates Hown.
  assert (Hempty : match code_units EmptyString with
                   | c :: _ => ~ (48 <= c <= 57)
                   | [] => True
                   end) by exact I.
  assert (Hnil : forall x : string, x +:+ EmptyString = x).
  { induction x as [|a x IH]; [reflexivity|].
    change (String a (x +:+ EmptyString) = String a x). by rewrite IH. }
  assert (Hread : forall i, 1 <= i <= 2 ^ 53 ->
            exists record,
              convertFirestoreData (mkSnapshot (toString (Int i)) (Some data))
                = Ok (Some record)
              /\ record !! "userId" = data !! "userId"
              /\ record !! "id" = Some (VNum (parseInt (toString (Int i))))
              /\ forall f, f <> "id" -> record !! f = read_back f <$> data !! f).
  { intros i Hi.
    destruct (convertFirestoreData_ok (toString (Int i)) _ Hdates) as (r & Hr & _).
    destruct (read_back_lookup _ _ _ Hr) as [Hid Hf].
    exists r. split; [exact Hr|]. split; [|split; [|exact Hf]].
    - rewrite Hf by discriminate. unfold read_back.
      rewrite bool_decide_eq_false_2 by apply not_date_userId.
      by destruct (data !! "userId").
    - rewrite Hid, key_id_toString by done.
      pose proof (parseInt_toString_Int i EmptyString Hi Hempty) as Hp.
      rewrite Hnil in Hp. by rewrite Hp. }
  split; intros Hdoc.
  - destruct (stored_key s TRADES_COLLECTION "tradeId" key data Hok) as (i & Hi & ->);
      [apply list_elem_of_further, list_elem_of_here|exact Hdoc|].
    destruct (Hread i Hi) as (r & Hr & Hru & Hrest).
    exists r. split; [|exact Hrest].
    unfold get_trade, ensureAuthenticated, try_catch. cbn [user params_id].
    rewrite (parseInt_toString_Int i suffix Hi Hsuf).
    unfold mbind, M_bind. rewrite (getTrade_stored _ _ _ Hdoc), Hr, Hru, Hown.
    reflexivity.
  - destruct (stored_key s COLLECTIONS_COLLECTION "collectionId" key data Hok)
      as (i & Hi & ->);
      [apply list_elem_of_further, list_elem_of_further, list_elem_of_here
      |exact Hdoc|].
    destruct (Hread i Hi) as (r & Hr & Hru & Hrest).
    exists r. split; [|exact Hrest].
    unfold get_collection, ensureAuthenticated, try_catch. cbn [user params_id].
    rewrite (parseInt_toString_Int i suffix Hi Hsuf).
    unfold mbind, M_bind. rewrite (getCollection_stored _ _ _ Hdoc), Hr, Hru, Hown.
    reflexivity.
Qed.

Lemma store_example (d : DocumentData) :
  store_ok (snd (initializeCounters (mkDb ∅ None))) ->
  store_ok
    (mkDb {[(TRADES_COLLECTION, "1") := d]}
       (Some (<["tradeId" := Int 2]>
                (<["collectionId" := Int 1]>
                   (<["tradeId" := Int 1]> {["userId" := Int 1]}))))).
Proof.
  intros Hinit.
  refine (proj2 (store_ok_create (snd (initializeCounters (mkDb ∅ None)))
                   (<["collectionId" := Int 1]>
                      (<["tradeId" := Int 1]> {["userId" := Int 1]}))
                   TRADES_COLLECTION "tradeId" 1 d Hinit _ _ _ _ _)).
  - vm_compute. reflexivity.
  - apply list_elem_of_further, list_elem_of_here.
  - vm_compute. reflexivity.
  - lia.
  - discriminate.
Qed.

Lemma get_route_reaches_witness :
  let data : DocumentData :=
    <["symbol" := VStr "AAPL"]> {["userId" := VNum (Int 7)]} in
  let s :=
    mkDb {[(TRADES_COLLECTION, "1") := data]}
      (Some (<["tradeId" := Int 2]>
               (<["collectionId" := Int 1]>
                  (<["tradeId" := Int 1]> {["userId" := Int 1]})))) in
  exists record,
    get_trade (mkRequest (Some {["id" := VNum (Int 7)]}) "1-draft" ∅) s
      = (mkResponse 200 (JRecord record), s)
    /\ record !! "id" = Some (VNum (parseInt "1"))
    /\ forall f, f <> "id" -> record !! f = read_back f <$> data !! f.
Proof.
  intros data s.
  assert (Hok : store_ok s) by apply store_example, store_ok_initial.
  refine (proj1 (get_route_reaches s "1" "-draft" {["id" := VNum (Int 7)]} data ∅
                   Hok _ _ _) _).
  - change (~ (48 <= 45 <= 57)). lia.
  - vm_compute. reflexivity.
  - vm_compute. reflexivity.
  - vm_compute. reflexivity.
Defined.

End Routes.

(** ** The operations that go through a query *)

Section Queries.

Import JS Firestore firebase FirebaseStorage Spec.
Local Open Scope Z_scope.

Lemma elem_of_collection_docs (s : db) (collection : string)
    (doc : DocumentSnapshot) :
  doc ∈ collection_docs s collection <->
  exists key d,
    doc = mkSnapshot key (Some d) /\ documents s !! (collection, key) = Some d.
Proof.
  unfold collection_docs. rewrite list_elem_of_fmap. split.
  - intros ([[c key] d] & -> & Hin).
    rewrite merge_sort_Permutation in Hin.
    apply list_elem_of_filter in Hin as [Hc Hin]. cbn in Hc. subst c.
    apply elem_of_map_to_list in Hin. by exists key, d.
  - intros (key & d & -> & Hdoc).
    exists (collection, key, d). split; [reflexivity|].
    rewrite merge_sort_Permutation. apply list_elem_of_filter.
    split; [reflexivity|]. by apply elem_of_map_to_list.
Qed.

Lemma NoDup_collection_docs (s : db) (collection : string) :
  NoDup (collection_docs s collection).
Proof.
  unfold collection_docs. apply NoDup_fmap_2_strong.
  - intros [[c1 k1] d1] [[c2 k2] d2] H1 H2 Heq.
    rewrite merge_sort_Permutation in H1, H2.
    apply list_elem_of_filter in H1 as [H1 _], H2 as [H2 _].
    cbn in H1, H2, Heq. congruence.
  - rewrite merge_sort_Permutation.
    apply NoDup_filter, NoDup_map_to_list.
Qed.

Lemma matches_stored (collection field : string) (q : value) (s : db)
    (doc : DocumentSnapshot) :
  doc ∈ filter (fun doc => matches field q doc = true)
          (collection_docs s collection) <->
  exists key d,
    doc = mkSnapshot key (Some d) /\ stored_match collection field q s key d.
Proof.
  rewrite list_elem_of_filter, elem_of_collection_docs. unfold stored_match. split.
  - intros [Hm (key & d & -> & Hdoc)]. exists key, d.
    split; [reflexivity|]. split; [exact Hdoc|].
    unfold matches in Hm. cbn in Hm.
    destruct (d !! field) as [v|]; [|discriminate]. by exists v.
  - intros (key & d & -> & Hdoc & v & Hv & Heq). split; [|by exists key, d].
    unfold matches. cbn. by rewrite Hv.
Qed.

(** The common body of the three lookups of one user. *)
Lemma first_match (field : string) (q : value) (s : db) :
  (query ← where_limit_get USERS_COLLECTION field q 1;
   if empty query then mret None
   else
     doc ← first_doc query;
     userData ← lift (convertFirestoreData doc);
     mret userData) s
  = match filter (fun doc => matches field q doc = true)
            (collection_docs s USERS_COLLECTION) with
    | [] => (Ok None, s)
    | doc :: _ => (convertFirestoreData doc, s)
    end.
Proof.
  unfold mbind at 1, M_bind at 1, where_limit_get.
  destruct (filter _ _) as [|doc l]; [reflexivity|].
  cbn [take empty docs]. unfold first_doc. cbn [docs].
  unfold mbind, M_bind, mret, M_ret, lift.
  by destruct (convertFirestoreData doc).
Qed.

Lemma first_match_finds (field : string) (q : value) (s : db) :
  finds field q s
    (match filter (fun doc => matches field q doc = true)
             (collection_docs s USERS_COLLECTION) with
     | [] => (Ok None, s)
     | doc :: _ => (convertFirestoreData doc, s)
     end).
Proof.
  pose proof (matches_stored USERS_COLLECTION field q s) as Hin.
  destruct (filter _ _) as [|doc l].
  - left. split; [reflexivity|]. intros key d Hm.
    apply (not_elem_of_nil (mkSnapshot key (Some d))).
    apply Hin. by exists key, d.
  - right. destruct (proj1 (Hin doc)) as (key & d & -> & Hm);
      [apply list_elem_of_here|].
    by exists key, d.
Qed.

(** X19.  A lookup of one user by identifier, user name or e-mail
    address returns nothing exactly when no user document holds the value
    asked for in that field, and otherwise what the normaliser makes of
    one of the documents that hold it; it never writes, and the empty
    result set never reaches [docs[0]]. *)
Theorem getUser_finds (s : db) (id : number) (username email : string) :
  finds "id" (VNum id) s (getUser id s)
  /\ finds "username" (VStr username) s (getUserByUsername username s)
  /\ finds "email" (VStr email) s (getUserByEmail email s).
Proof.
  unfold getUser, getUserByUsername, getUserByEmail.
  rewrite !first_match. repeat split; apply first_match_finds.
Qed.

Lemma map_result_Ok {A B : Type} (f : A -> result B) (l : list A) (bs : list B) :
  map_result f l = Ok bs ->
  forall b, b ∈ bs <-> exists a, a ∈ l /\ f a = Ok b.
Proof.
  revert bs. induction l as [|a l IH]; intros bs.
  - intros [= <-] b. split; [by intros ?%elem_of_nil|].
    by intros (a & ?%elem_of_nil & _).
  - cbn [map_result]. destruct (f a) as [b0|e] eqn:Ea; [|discriminate].
    cbn [mbind result_bind].
    destruct (map_result f l) as [bs0|e] eqn:El; [|discriminate].
    intros [= <-] b. rewrite elem_of_cons, (IH bs0 eq_refl b). split.
    + intros [->|(a' & Hin & Hb)].
      * exists a. split; [apply list_elem_of_here|exact Ea].
      * exists a'. split; [by apply list_elem_of_further|exact Hb].
    + intros (a' & [->|Hin]%elem_of_cons & Hb).
      * left. congruence.
      * right. by exists a'.
Qed.

Lemma map_result_Ok_all {A B : Type} (f : A -> result B) (l : list A)
    (bs : list B) :
  map_result f l = Ok bs -> forall a, a ∈ l -> exists b, f a = Ok b.
Proof.
  revert bs. induction l as [|a l IH]; intros bs Hbs a' Ha'.
  - by apply elem_of_nil in Ha'.
  - cbn [map_result] in Hbs. destruct (f a) as [b0|e] eqn:Ea; [|discriminate].
    cbn [mbind result_bind] in Hbs.
    destruct (map_result f l) as [bs0|e] eqn:El; [|discriminate].
    apply elem_of_cons in Ha' as [->|Hin]; [by exists b0|].
    by apply (IH bs0).
Qed.

Lemma map_result_Throw {A B : Type} (f : A -> result B) (l : list A) (e : error) :
  map_result f l = Throw e -> exists a, a ∈ l /\ f a = Throw e.
Proof.
  induction l as [|a l IH]; [discriminate|].
  cbn [map_result]. destruct (f a) as [b0|e0] eqn:Ea.
  - cbn [mbind result_bind].
    destruct (map_result f l) as [bs0|e1] eqn:El; [discriminate|].
    intros [= <-]. destruct (IH eq_refl) as (a' & Hin & Ha').
    exists a'. split; [by apply list_elem_of_further|exact Ha'].
  - intros [= <-]. exists a. split; [apply list_elem_of_here|exact Ea].
Qed.

Lemma convertFirestoreCollection_docs (l : list DocumentSnapshot) :
  Forall (fun doc => exists_ doc = true) l ->
  map_result convertFirestoreData l
  = map Some <$> convertFirestoreCollection (mkQuery l).
Proof.
  intros Hall. unfold convertFirestoreCollection, empty. cbn [docs].
  destruct l as [|doc l]; [reflexivity|].
  apply map_result_fmap.
  eapply Forall_impl; [exact Hall|].
  intros d Hd. by apply convertFirestoreData_existing.
Qed.

(** The common body of the three listings. *)
Lemma where_lists (collection field : string) (q : value) (s : db) :
  lists collection field q s
    ((query ← where_get collection field q;
      lift (convertFirestoreCollection query)) s).
Proof.
  unfold mbind, M_bind, where_get, lift.
  pose proof (matches_stored collection field q s) as Hin.
  set (l := filter _ _) in *.
  assert (Hall : Forall (fun doc => exists_ doc = true) l).
  { apply Forall_forall. intros doc Hdoc.
    apply Hin in Hdoc as (key & d & -> & _). reflexivity. }
  pose proof (convertFirestoreCollection_docs l Hall) as Hmap.
  destruct (convertFirestoreCollection (mkQuery l)) as [rs|e] eqn:Ers;
    unfold lists.
  - split; [reflexivity|]. split.
    { intros key d Hm.
      destruct (map_result_Ok_all _ _ _ Hmap (mkSnapshot key (Some d)))
        as (r & Hr); [apply Hin; by exists key, d|].
      cbn [fmap result_fmap] in Hr. destruct r as [r|].
      - by apply (convertFirestoreData_returns key d r).
      - destruct (date_fields_ok d) eqn:Ed; [reflexivity|].
        rewrite (convertFirestoreData_throws _ _ Ed) in Hr. discriminate. }
    intros r.
    pose proof (map_result_Ok _ _ _ Hmap (Some r)) as Hr.
    cbn [fmap result_fmap] in Hr. split.
    + intros Hrin.
      destruct (proj1 Hr) as (doc & Hdoc & Hc).
      { apply list_elem_of_fmap. by exists r. }
      apply Hin in Hdoc as (key & d & -> & Hm). by exists key, d.
    + intros (key & d & Hm & Hc).
      assert (Hsome : Some r ∈ map Some rs).
      { apply Hr. exists (mkSnapshot key (Some d)). split; [|exact Hc].
        apply Hin. by exists key, d. }
      change (Some r ∈ Some <$> rs) in Hsome.
      apply list_elem_of_fmap in Hsome as (r' & [= ->] & Hr'). exact Hr'.
  - cbn [fmap result_fmap] in Hmap.
    destruct (map_result_Throw _ _ _ Hmap) as (doc & Hdoc & Hc).
    apply Hin in Hdoc as (key & d & -> & Hm).
    destruct (date_fields_ok d) eqn:Ed.
    { destruct (convertFirestoreData_ok key d Ed) as (r & Hr & _). congruence. }
    rewrite (convertFirestoreData_throws _ _ Ed) in Hc. injection Hc as <-.
    split; [reflexivity|]. split; [reflexivity|]. by exists key, d.
Qed.

(** X20.  A listing returns the records of exactly the stored documents
    whose field holds the identifier asked for: [getUserTrades] and
    [getUserCollections] filter on [userId], [getCollectionTrades] on
    [collectionId] alone.  It throws a TypeError only when one of those
    documents has a date field that cannot be read, and it never
    writes. *)
Theorem listings_by_field (s : db) (id : number) :
  lists TRADES_COLLECTION "userId" (VNum id) s (getUserTrades id s)
  /\ lists TRADES_COLLECTION "collectionId" (VNum id) s (getCollectionTrades id s)
  /\ lists COLLECTIONS_COLLECTION "userId" (VNum id) s (getUserCollections id s).
Proof.
  repeat split; apply where_lists.
Qed.

Lemma firestore_equal_Int (v : value) (z : Z) :
  1 <= z -> firestore_equal v (VNum (Int z)) = true -> v = VNum (Int z).
Proof.
  intros Hz Heq. apply bool_decide_eq_true in Heq.
  destruct v as [| |n| | |]; try discriminate.
  destruct n as [|neg| |i|neg m k]; try discriminate.
  - exfalso. cbn in Heq. injection Heq as Heq. lia.
  - cbn in Heq. congruence.
Qed.

Lemma firestore_equal_Str (v : value) (x : string) :
  firestore_equal v (VStr x) = true <-> v = VStr x.
Proof.
  split.
  - intros Heq. apply bool_decide_eq_true in Heq.
    destruct v as [| |n| | |]; try discriminate; try (destruct n; discriminate).
    exact Heq.
  - intros ->. by apply bool_decide_eq_true.
Qed.

Lemma user_document (s : db) (key : string) (d : DocumentData) :
  store_ok s ->
  documents s !! (USERS_COLLECTION, key) = Some d ->
  exists i, 1 <= i <= 2 ^ 53 /\ key = toString (Int i)
            /\ d !! "id" = Some (VNum (Int i)).
Proof.
  intros (c & _ & Hk) Hdoc.
  destruct (Hk USERS_COLLECTION "userId") as (z & _ & Hz & Hdocs);
    [apply list_elem_of_here|].
  destruct (Hdocs _ _ Hdoc) as (i & Hi & -> & Hid).
  exists i. split; [lia|]. split; [reflexivity|]. by apply Hid.
Qed.

Lemma getUser_stored (s : db) (z : Z) (d : DocumentData) :
  store_ok s ->
  1 <= z <= 2 ^ 53 ->
  documents s !! (USERS_COLLECTION, toString (Int z)) = Some d ->
  getUser (Int z) s
  = (convertFirestoreData (mkSnapshot (toString (Int z)) (Some d)), s).
Proof.
  intros Hok Hz Hdoc. unfold getUser. rewrite first_match.
  destruct (first_match_finds "id" (VNum (Int z)) s)
    as [[_ Hnone]|(key & d' & [Hdoc' (v & Hv & Heq)] & ->)].
  - exfalso. apply (Hnone (toString (Int z)) d). split; [exact Hdoc|].
    destruct (user_document _ _ _ Hok Hdoc) as (i & Hi & Hkey & Hid).
    apply toString_Int_inj in Hkey; [|done..]. subst i.
    exists (VNum (Int z)). split; [exact Hid|]. by apply bool_decide_eq_true.
  - destruct (user_document _ _ _ Hok Hdoc') as (i & Hi & -> & Hid).
    rewrite Hid in Hv. injection Hv as <-.
    apply firestore_equal_Int in Heq; [|lia]. injection Heq as ->.
    rewrite Hdoc in Hdoc'. by injection Hdoc' as ->.
Qed.




(** X22.  The registration sequence.  In a store written through the
    record store whose user counter is below 2^53, when no user holds the
    user name yet ([getUserByUsername] returns nothing), the user created
    from a payload with that user name whose values survive a write and
    a read is afterwards returned, exactly as [createUser] returned it,
    both by [getUser] of its identifier and by [getUserByUsername]. *)
Theorem createUser_then_lookup (s : db) (c : gmap string number) (now : Date)
    (insert : DocumentData) (z : Z) (username : string) :
  store_ok s ->
  counters s = Some c ->
  number_or_else (c !! "userId") (Int 1) = Int z ->
  z < 2 ^ 53 ->
  insert !! "username" = Some (VStr username) ->
  (forall f v,
     f ∉ ["id"; "createdAt"; "stripeCustomerId"; "stripeSubscriptionId";
          "planType"] ->
     insert !! f = Some v -> survives f v = true) ->
  fst (getUserByUsername username s) = Ok None ->
  exists user s',
    createUser now insert s = (Ok user, s')
    /\ getUser (Int z) s' = (Ok (Some user), s')
    /\ getUserByUsername username s' = (Ok (Some user), s').
Proof.
  intros Hok Hc Hcur Hlt Hname Hsur Hfree.
  assert (Hz : 1 <= z <= 2 ^ 53).
  { destruct Hok as (c0 & Hc0 & Hk). rewrite Hc in Hc0. injection Hc0 as <-.
    destruct (Hk USERS_COLLECTION "userId") as (z0 & Hz0 & Hb & _);
      [apply list_elem_of_here|].
    rewrite Hcur in Hz0. injection Hz0 as <-. exact Hb. }
  pose proof (createUser_run s c now insert Hc) as Hrun.
  cbv zeta in Hrun. rewrite Hcur in Hrun.
  set (user := object_literal insert _) in Hrun.
  destruct (store_ok_create s c USERS_COLLECTION "userId" z (encode user)
              Hok Hc) as [Hfresh Hok'];
    [apply list_elem_of_here|exact Hcur|exact Hlt| |].
  { intros _. unfold encode. rewrite lookup_fmap.
    replace (user !! "id") with (Some (VNum (Int z)))
      by (symmetry; subst user; fields).
    reflexivity. }
  assert (Hread : convertFirestoreData
                    (mkSnapshot (toString (Int z)) (Some (encode user)))
                  = Ok (Some user)).
  { apply write_read; [exact Hz|subst user; fields|].
    intros f v Hid. subst user.
    destruct (decide (f = "createdAt")) as [->|H1].
    { unfold object_literal. cbn [foldl fst snd]. simplify_map_eq. by intros [= <-]. }
    destruct (decide (f = "stripeCustomerId")) as [->|H2].
    { unfold object_literal. cbn [foldl fst snd]. simplify_map_eq. by intros [= <-]. }
    destruct (decide (f = "stripeSubscriptionId")) as [->|H3].
    { unfold object_literal. cbn [foldl fst snd]. simplify_map_eq. by intros [= <-]. }
    destruct (decide (f = "planType")) as [->|H4].
    { unfold object_literal. cbn [foldl fst snd]. simplify_map_eq. by intros [= <-]. }
    destruct (decide (f = "avatar")) as [->|H5].
    { unfold object_literal. cbn [foldl fst snd]. simplify_map_eq. intros [= <-].
      apply or_else_survives; [by apply not_date_field|].
      intros w Hw. apply (Hsur "avatar"); [|exact Hw].
      repeat (apply not_elem_of_cons; split; [discriminate|]).
      apply not_elem_of_nil. }
    unfold object_literal. cbn [foldl fst snd]. simplify_map_eq.
    apply Hsur.
    repeat (apply not_elem_of_cons; split; [done|]). apply not_elem_of_nil. }
  assert (Huser : encode user !! "username" = Some (VStr username)).
  { unfold encode. rewrite lookup_fmap.
    replace (user !! "username") with (Some (VStr username))
      by (symmetry; subst user; fields).
    reflexivity. }
  eexists user, _. split; [exact Hrun|]. split.
  - rewrite (getUser_stored _ z (encode user) Hok' Hz (lookup_insert_eq _ _ _)).
    by rewrite Hread.
  - unfold getUserByUsername in *. rewrite first_match in *.
    destruct (first_match_finds "username" (VStr username) s)
      as [[_ Hnone]|(key & d & Hm & Hout)].
    2:{ rewrite Hout in Hfree. cbn [fst] in Hfree.
        destruct Hm as [Hdoc _].
        destruct (date_fields_ok d) eqn:Ed.
        - destruct (convertFirestoreData_ok key d Ed) as (r & Hr & _). congruence.
        - rewrite (convertFirestoreData_throws _ _ Ed) in Hfree. discriminate. }
    match goal with
    | |- context [mkDb ?docs ?cs] => set (s' := mkDb docs cs)
    end.
    destruct (first_match_finds "username" (VStr username) s')
      as [[_ Hnone']|(key & d & [Hdoc (v & Hv & Heq)] & ->)].
    + exfalso. apply (Hnone' (toString (Int z)) (encode user)).
      split; [apply lookup_insert_eq|].
      exists (VStr username). split; [exact Huser|]. by apply firestore_equal_Str.
    + destruct (decide (key = toString (Int z))) as [->|Hne].
      * subst s'. cbn [documents] in Hdoc. rewrite lookup_insert_eq in Hdoc.
        injection Hdoc as <-. by rewrite Hread.
      * exfalso. apply (Hnone key d). split; [|by exists v].
        subst s'. cbn [documents] in Hdoc.
        rewrite lookup_insert_ne in Hdoc; [exact Hdoc|congruence].
Qed.

Lemma createUser_then_lookup_witness :
  let s := snd (initializeCounters (mkDb ∅ None)) in
  let insert : DocumentData :=
    <["username" := VStr "ann"]> {["password" := VStr "x"]} in
  exists user s',
    createUser (mkDate 5) insert s = (Ok user, s')
    /\ getUser (Int 1) s' = (Ok (Some user), s')
    /\ getUserByUsername "ann" s' = (Ok (Some user), s').
Proof.
  intros s insert.
  assert (Hc : counters s = Some (<["collectionId" := Int 1]>
                 (<["tradeId" := Int 1]> {["userId" := Int 1]})))
    by (vm_compute; reflexivity).
  refine (createUser_then_lookup s _ (mkDate 5) insert 1 "ann"
            store_ok_initial Hc _ _ _ _ _).
  - vm_compute. reflexivity.
  - lia.
  - vm_compute. reflexivity.
  - intros f v _ Hv.
    destruct (decide (f = "username")) as [->|H1].
    { vm_compute in Hv. injection Hv as <-. reflexivity. }
    destruct (decide (f = "password")) as [->|H2].
    { vm_compute in Hv. injection Hv as <-. reflexivity. }
    subst insert. rewrite !lookup_insert_ne in Hv by done. 
    rewrite lookup_singleton_ne in Hv by done. discriminate.
  - vm_compute. reflexivity.
Defined.




End Queries.

(** ** The listing route of a collection *)

Section RouteListing.

Import JS Firestore firebase FirebaseStorage routes Spec.
Local Open Scope Z_scope.

(** X24.  GET /api/collections/:id/trades checks the owner of the
    collection only.  For the owner it answers 200 with the records of
    exactly the stored trades whose [collectionId] is the identifier,
    whatever their [userId], or 500 when one of those trades cannot be
    read; the store is left as it was. *)
Theorem collection_trades_route (req : Request) (s : db) :
  collection_owner req s ->
  lists TRADES_COLLECTION "collectionId" (VNum (parseInt (params_id req))) s
    (getCollectionTrades (parseInt (params_id req)) s)
  /\ get_collection_trades req s
     = (match fst (getCollectionTrades (parseInt (params_id req)) s) with
        | Ok trades => mkResponse 200 (JList trades)
        | Throw e => mkResponse 500 (JErrorMessage e)
        end, s).
Proof.
  intros Hown.
  pose proof (where_lists TRADES_COLLECTION "collectionId"
                (VNum (parseInt (params_id req))) s) as Hl.
  change (lists TRADES_COLLECTION "collectionId"
            (VNum (parseInt (params_id req))) s
            (getCollectionTrades (parseInt (params_id req)) s)) in Hl.
  split; [exact Hl|].
  destruct (collection_owner_stored _ _ Hown)
    as (u & t & old & Hu & _ & Hg & Ho).
  unfold get_collection_trades, ensureAuthenticated, try_catch. rewrite Hu.
  unfold mbind at 1, M_bind at 1. rewrite Hg, Ho. cbn [negb].
  unfold mbind, M_bind.
  destruct (getCollectionTrades (parseInt (params_id req)) s) as [[l|e] s'];
    unfold lists in Hl.
  - by destruct Hl as (-> & _).
  - by destruct Hl as (-> & _).
Qed.

Lemma collection_trades_route_witness :
  let s :=
    mkDb (<[(COLLECTIONS_COLLECTION, "1") := {["userId" := VNum (Int 1)]}]>
            {[(TRADES_COLLECTION, "4") :=
                <["collectionId" := VNum (Int 1)]> {["userId" := VNum (Int 2)]}]})
         None in
  get_collection_trades (mkRequest (Some {["id" := VNum (Int 1)]}) "1" ∅) s
  = (mkResponse 200
       (JList [<["id" := VNum (Int 4)]>
                 (<["collectionId" := VNum (Int 1)]>
                    {["userId" := VNum (Int 2)]})]), s).
Proof.
  intros s.
  assert (Hown : collection_owner
                   (mkRequest (Some {["id" := VNum (Int 1)]}) "1" ∅) s).
  { eexists _, _. split; [reflexivity|]. split.
    - assert (Hdoc : documents s
                       !! (COLLECTIONS_COLLECTION, toString (parseInt "1"))
                     = Some {["userId" := VNum (Int 1)]})
        by (vm_compute; reflexivity).
      cbn [params_id]. rewrite (getCollection_stored _ _ _ Hdoc). cbn [fst].
      vm_compute. reflexivity.
    - vm_compute. reflexivity. }
  rewrite (proj2 (collection_trades_route _ s Hown)).
  vm_compute. reflexivity.
Defined.

End RouteListing.
